(** * mycamera: the OV5640 camera / autofocus driver

    A shallow embedding of [mycamera/__init__.py] (class [MyCameraBase] and
    its subclass [MyCamera]) and the properties of its register bus, firmware
    loader, autofocus handshake and resolution table.

    Python integers are unbounded and are modelled by [Z]; [>>], [<<] and [&]
    are [Z.shiftr], [Z.shiftl] and [Z.land].  A [bytearray] is a [list Z]
    whose stores are range checked.  The driver is a state-and-exception
    monad over the object's attributes, the I2C device behind the bus, and a
    chronological trace of the effects visible from outside (bus transfers,
    sleeps, sensor reconfigurations and frame grabs).  [print] calls only
    write to the console and are left out. *)

From Stdlib Require Import ZArith List String Bool Lia.
Import ListNotations.
Open Scope Z_scope.

(** ** Python values and built-ins used by the driver *)

Module Py.

(** The exceptions the driver can raise or let through. *)
Inductive exn : Type :=
| ValueError                      (* byte must be in range(0, 256); negative sleep;
                                     no I2C device at the address *)
| OverflowError                   (* sleep length out of the range of the clock *)
| IndexError                      (* sequence index out of range *)
| AttributeError (attr : string)  (* attribute missing on the receiver *)
| OSError                         (* I2C transfer not acknowledged; file missing *)
| RuntimeError (msg : string).    (* raised by the driver itself *)

Inductive result (A : Type) : Type :=
| Ok (a : A)
| Raise (e : exn).
Arguments Ok {A} a.
Arguments Raise {A} e.

(** An argument that may be a [str], an [int] or anything else. *)
Inductive value : Type :=
| Str (s : string)
| Int (z : Z)
| Other.

Definition len {A : Type} (l : list A) : Z := Z.of_nat (List.length l).

(** [bytearray(n)]: [n] zero bytes. *)
Definition bytearray (n : nat) : list Z := repeat 0 n.

(** [b[i] = v] on a list, for [i] inside the list. *)
Fixpoint store {A : Type} (i : nat) (v : A) (b : list A) : list A :=
  match b, i with
  | [], _ => []
  | _ :: t, O => v :: t
  | h :: t, S j => h :: store j v t
  end.

Definition is_byte (v : Z) : bool := (0 <=? v) && (v <? 256).

(** [time.sleep] turns its argument into a signed 64-bit count of
    nanoseconds: the longest sleep, in milliseconds, is the largest [ms]
    with [ms * 10^6 < 2^63]. *)
Definition sleep_limit : Z := 9223372036854.

(** [l[a:b]] for [0 <= a]. *)
Definition slice {A : Type} (l : list A) (a b : Z) : list A :=
  firstn (Z.to_nat (b - a)) (skipn (Z.to_nat a) l).

(** [l[a:b] = xs] for [0 <= a <= b]. *)
Definition slice_assign {A : Type} (l : list A) (a b : Z) (xs : list A) : list A :=
  firstn (Z.to_nat a) l ++ xs ++ skipn (Z.to_nat b) l.

(** [range(start, stop, step)] for [step > 0]: at most [stop - start]
    elements are produced, so that many unfoldings are enough. *)
Fixpoint range_from (fuel : nat) (start stop step : Z) : list Z :=
  match fuel with
  | O => []
  | S f => if start <? stop
           then start :: range_from f (start + step) stop step
           else []
  end.

Definition range (start stop step : Z) : list Z :=
  range_from (Z.to_nat (stop - start)) start stop step.

(** [x in t] and [t.index(x)] on a tuple of strings. *)
Definition contains (x : string) (t : list string) : bool :=
  existsb (String.eqb x) t.

Fixpoint index (x : string) (t : list string) : Z :=
  match t with
  | [] => 0
  | y :: r => if String.eqb y x then 0 else 1 + index x r
  end.

(** [t[i]] on a tuple: negative indices count from the end. *)
Definition getitem {A : Type} (t : list A) (i : Z) : option A :=
  if (0 <=? i) && (i <? len t) then nth_error t (Z.to_nat i)
  else if (- len t <=? i) && (i <? 0) then nth_error t (Z.to_nat (len t + i))
  else None.

End Py.
Import Py.

(** ** The [espcamera] interface *)

Inductive PixelFormat : Type := RGB565 | JPEG.

Inductive FrameSize : Type :=
| HQVGA | R240X240 | QVGA | VGA | SVGA | XGA | HD | SXGA | UXGA | FHD
| QXGA | QHD | WQXGA | QSXGA.

(** The attributes of [espcamera.Camera] that the driver touches. *)
Record Camera : Type := mkCamera {
  sensor_name : string;
  address : Z;
  pixel_format : PixelFormat;
  frame_size : FrameSize;
  hmirror : bool;
  vflip : bool;
  whitebal : bool;
  exposure_ctrl : bool;
  gain_ctrl : bool
}.

(** ** Module constants *)

Definition _REG_DLY : Z := 0xFFFF.

Definition _OV5640_STAT_FIRMWAREBAD : Z := 0x7F.
Definition _OV5640_STAT_STARTUP : Z := 0x7E.
Definition _OV5640_STAT_IDLE : Z := 0x70.
Definition _OV5640_STAT_FOCUSING : Z := 0x00.
Definition _OV5640_STAT_FOCUSED : Z := 0x10.

Definition _OV5640_CMD_TRIGGER_AUTOFOCUS : Z := 0x03.
Definition _OV5640_CMD_AUTO_AUTOFOCUS : Z := 0x04.
Definition _OV5640_CMD_RELEASE_FOCUS : Z := 0x08.
Definition _OV5640_CMD_AF_SET_VCM_STEP : Z := 0x1A.
Definition _OV5640_CMD_AF_GET_VCM_STEP : Z := 0x1B.

Definition _OV5640_CMD_MAIN : Z := 0x3022.
Definition _OV5640_CMD_ACK : Z := 0x3023.
Definition _OV5640_CMD_PARA0 : Z := 0x3024.
Definition _OV5640_CMD_PARA1 : Z := 0x3025.
Definition _OV5640_CMD_PARA2 : Z := 0x3026.
Definition _OV5640_CMD_PARA3 : Z := 0x3027.
Definition _OV5640_CMD_PARA4 : Z := 0x3028.
Definition _OV5640_CMD_FW_STATUS : Z := 0x3029.

(** ** Class attributes of [MyCameraBase] *)

Definition _finalize_firmware_load : list Z :=
  [ 0x3022; 0x00; 0x3023; 0x00; 0x3024; 0x00; 0x3025; 0x00; 0x3026; 0x00;
    0x3027; 0x00; 0x3028; 0x00; 0x3029; 0x7F; 0x3000; 0x00 ].

Definition resolutions : list string :=
  [ "240x240"; "320x240"; "640x480"; "800x600"; "1024x768"; "1280x720";
    "1280x1024"; "1600x1200"; "1920x1080"; "2048x1536"; "2560x1440";
    "2560x1600"; "2560x1920" ]%string.

Definition resolution_to_frame_size : list FrameSize :=
  [ R240X240; QVGA; VGA; SVGA; XGA; HD; SXGA; UXGA; FHD; QXGA; QHD; WQXGA;
    QSXGA ].

(** ** The bus device and the observable effects *)

(** The sensor as seen through [adafruit_bus_device.I2CDevice]: a write
    transmits a frame of bytes, a one-byte read returns a byte; either can
    go unacknowledged ([None]), which the library reports as [OSError]. *)
Class I2CDevice (D : Type) : Type := {
  i2c_write : list Z -> D -> option D;
  i2c_readinto : D -> option (Z * D)
}.

Inductive event : Type :=
| I2CWrite (frame : list Z)                      (* i2c.write(buf, end=...) *)
| I2CRead (byte : Z)                             (* i2c.readinto(buf, end=1) *)
| Sleep (ms : Z)                                 (* time.sleep(ms / 1000) *)
| Reconfigure (pf : PixelFormat) (fs : FrameSize)  (* camera.reconfigure(...) *)
| Take (frame : option (list Z)).                (* camera.take(1) *)

(** A scripted device acknowledges every write and answers the successive
    reads with the bytes of its script; once the script is used up the
    device no longer answers. *)
Definition Scripted : Type := list Z.

#[global] Instance Scripted_device : I2CDevice Scripted := {
  i2c_write := fun _ s => Some s;
  i2c_readinto := fun s => match s with
                           | [] => None
                           | v :: rest => Some (v, rest)
                           end
}.

(** A register file: 16-bit addressed registers with an address pointer.  A
    frame is two address bytes followed by the bytes to store at consecutive
    addresses; a read returns the register under the pointer. *)
Record RegFile : Type := mkRegFile {
  regs : Z -> Z;
  pointer : Z
}.

Fixpoint burst (a : Z) (data : list Z) (m : Z -> Z) : Z -> Z :=
  match data with
  | [] => m
  | v :: rest => burst (a + 1) rest (fun x => if x =? a then v else m x)
  end.

#[global] Instance RegFile_device : I2CDevice RegFile := {
  i2c_write := fun frame d =>
    match frame with
    | hi :: lo :: data =>
        let a := hi * 256 + lo in
        Some (mkRegFile (burst a data (regs d)) (a + len data))
    | _ => None
    end;
  i2c_readinto := fun d => Some (regs d (pointer d), mkRegFile (regs d) (pointer d + 1))
}.

(** ** The driver *)

Section Driver.

Context {D : Type} {device : I2CDevice D}.

(** The object's attributes ([_camera_device], [camera], [_resolution];
    [None] stands for [None] in the first two and for an attribute that
    was never assigned in the third), and the world around it: the device
    on the bus, the sensor found by [espcamera.Camera(...)], the contents
    of [ov5640_autofocus.bin], the outcomes of the coming frame grabs, and
    the trace of effects so far. *)
Record St : Type := mkSt {
  _camera_device : option Z;
  camera : option Camera;
  _resolution : option Z;
  bus : D;
  attached : string * Z;
  firmware_file : option (list Z);
  frames : list (option (list Z));
  trace : list event
}.

Definition M (A : Type) : Type := St -> result A * St.

Definition ret {A : Type} (a : A) : M A := fun st => (Ok a, st).

Definition raise {A : Type} (e : exn) : M A := fun st => (Raise e, st).

Definition bind {A B : Type} (m : M A) (k : A -> M B) : M B :=
  fun st => match m st with
            | (Ok a, st') => k a st'
            | (Raise e, st') => (Raise e, st')
            end.

Notation "x <- m ;; k" := (bind m (fun x => k))
  (at level 61, m at next level, right associativity).
Notation "m ;;; k" := (bind m (fun _ => k))
  (at level 61, right associativity).

Definition with_camera_device (a : option Z) (st : St) : St :=
  mkSt a (camera st) (_resolution st) (bus st) (attached st)
       (firmware_file st) (frames st) (trace st).
Definition with_camera (c : option Camera) (st : St) : St :=
  mkSt (_camera_device st) c (_resolution st) (bus st) (attached st)
       (firmware_file st) (frames st) (trace st).
Definition with_resolution (r : option Z) (st : St) : St :=
  mkSt (_camera_device st) (camera st) r (bus st) (attached st)
       (firmware_file st) (frames st) (trace st).
Definition with_bus (d : D) (st : St) : St :=
  mkSt (_camera_device st) (camera st) (_resolution st) d (attached st)
       (firmware_file st) (frames st) (trace st).
Definition with_frames (f : list (option (list Z))) (st : St) : St :=
  mkSt (_camera_device st) (camera st) (_resolution st) (bus st) (attached st)
       (firmware_file st) f (trace st).
Definition emit (es : list event) (st : St) : St :=
  mkSt (_camera_device st) (camera st) (_resolution st) (bus st) (attached st)
       (firmware_file st) (frames st) (trace st ++ es).

Definition log (e : event) : M unit := fun st => (Ok tt, emit [e] st).

(** [time.sleep(ms / 1000)].  A duration whose count of nanoseconds does
    not fit 64 bits (or that is too large for a float at all) is an
    [OverflowError]; the conversion comes first, then a negative duration
    is a [ValueError]. *)
Definition sleep (ms : Z) : M unit :=
  if sleep_limit <? Z.abs ms then raise OverflowError
  else if ms <? 0 then raise ValueError
  else log (Sleep ms).

(** [b[i] = v] on a bytearray: [ValueError] unless [v] is in
    [range(0, 256)]. *)
Definition bytearray_set (b : list Z) (i : nat) (v : Z) : M (list Z) :=
  if is_byte v then ret (store i v b) else raise ValueError.

(** [with self._camera_device as i2c:] *)
Definition enter_camera_device : M Z :=
  fun st => match _camera_device st with
            | Some a => (Ok a, st)
            | None => (Raise (AttributeError "__enter__"), st)
            end.

Definition bus_write (frame : list Z) : M unit :=
  fun st => match i2c_write frame (bus st) with
            | Some d => (Ok tt, emit [I2CWrite frame] (with_bus d st))
            | None => (Raise OSError, st)
            end.

Definition bus_readinto : M Z :=
  fun st => match i2c_readinto (bus st) with
            | Some (v, d) => (Ok v, emit [I2CRead v] (with_bus d st))
            | None => (Raise OSError, st)
            end.

(** [self.camera.<attr>]: fails on [None]. *)
Definition get_camera (attr : string) : M Camera :=
  fun st => match camera st with
            | Some c => (Ok c, st)
            | None => (Raise (AttributeError attr), st)
            end.

Definition put_camera (c : Camera) : M unit :=
  fun st => (Ok tt, with_camera (Some c) st).

(** *** Register bus *)

Definition write_camera_register (reg value : Z) : M unit :=
  let b := bytearray 3 in
  b <- bytearray_set b 0 (Z.shiftr reg 8) ;;
  b <- bytearray_set b 1 (Z.land reg 0xFF) ;;
  b <- bytearray_set b 2 value ;;
  enter_camera_device ;;;
  bus_write b.

Fixpoint write_camera_list (reg_list : list Z) : M unit :=
  match reg_list with
  | [] => ret tt
  | [_] => raise IndexError
  | register :: value :: rest =>
      (if register =? _REG_DLY
       then sleep value
       else write_camera_register register value) ;;;
      write_camera_list rest
  end.

Definition read_camera_register (reg : Z) : M Z :=
  let b := bytearray 2 in
  b <- bytearray_set b 0 (Z.shiftr reg 8) ;;
  b <- bytearray_set b 1 (Z.land reg 0xFF) ;;
  enter_camera_device ;;;
  bus_write b ;;;
  v <- bus_readinto ;;
  ret (nth 0 (store 0 v b) 0).

Definition autofocus_status : M Z :=
  read_camera_register _OV5640_CMD_FW_STATUS.

(** *** Firmware loader *)

(** The body of [for offset in range(0, len(firmware), 254)]; [arr] is
    the 256-byte buffer reused by every iteration. *)
Fixpoint upload_chunks (offsets : list Z) (firmware arr : list Z) : M unit :=
  match offsets with
  | [] => ret tt
  | offset :: rest =>
      let num_firmware_bytes := Z.min 254 (len firmware - offset) in
      let reg := offset + 0x8000 in
      arr <- bytearray_set arr 0 (Z.shiftr reg 8) ;;
      arr <- bytearray_set arr 1 (Z.land reg 0xFF) ;;
      let arr := slice_assign arr 2 (2 + num_firmware_bytes)
                   (slice firmware offset (offset + num_firmware_bytes)) in
      bus_write (slice arr 0 (2 + num_firmware_bytes)) ;;;
      upload_chunks rest firmware arr
  end.

(** [with self._camera_device as i2c: for offset in ...] *)
Definition upload_firmware (firmware : list Z) : M unit :=
  let arr := bytearray 256 in
  enter_camera_device ;;;
  upload_chunks (range 0 (len firmware) 254) firmware arr.

(** [for _ in range(n): if status == IDLE: break ... else: raise] *)
Fixpoint wait_idle (n : nat) : M unit :=
  match n with
  | O => raise (RuntimeError "Timed out after trying to load autofocus firmware")
  | S k =>
      s <- autofocus_status ;;
      if s =? _OV5640_STAT_IDLE then ret tt
      else sleep 10 ;;; wait_idle k
  end.

Definition autofocus_init_from_bitstream (firmware : list Z) : M unit :=
  c <- get_camera "sensor_name" ;;
  if negb (String.eqb (sensor_name c) "OV5640")
  then raise (RuntimeError ("Autofocus not supported on " ++ sensor_name c))
  else
    write_camera_register 0x3000 0x20 ;;;
    sleep 10 ;;;
    upload_firmware firmware ;;;
    write_camera_list _finalize_firmware_load ;;;
    wait_idle 100.

(** [open(filename, "rb").read()]: the only file the driver ever opens is
    the firmware shipped next to the module, whose contents the world
    holds in [firmware_file] ([None] when it cannot be opened). *)
Definition autofocus_init_from_file (filename : string) : M unit :=
  fun st => match firmware_file st with
            | Some firmware => autofocus_init_from_bitstream firmware st
            | None => (Raise OSError, st)
            end.

(** The path is the module's directory followed by the file name. *)
Definition autofocus_init : M unit :=
  autofocus_init_from_file "ov5640_autofocus.bin".

(** *** Construction *)

Definition __init__ : M unit :=
  fun st => (Ok tt, with_camera None (with_camera_device None st)).

(** [I2CDevice(self._i2c, address)]: the constructor probes the address
    with an empty write and, when that is not acknowledged, with a
    one-byte read; when neither is, it raises [ValueError("No I2C device at
    address ...")]. *)
Definition probe_for_device : M unit :=
  fun st => match i2c_write [] (bus st) with
            | Some d => (Ok tt, emit [I2CWrite []] (with_bus d st))
            | None =>
                match i2c_readinto (bus st) with
                | Some (v, d) => (Ok tt, emit [I2CRead v] (with_bus d st))
                | None => (Raise ValueError, st)
                end
            end.

Definition init_camera (init_autofocus : bool) : M unit :=
  (fun st =>
     let c := mkCamera (fst (attached st)) (snd (attached st))
                       RGB565 HQVGA false false true true true in
     (Ok tt, with_camera (Some c) st)) ;;;
  c <- get_camera "address" ;;
  probe_for_device ;;;
  (fun st => (Ok tt, with_camera_device (Some (address c)) st)) ;;;
  c <- get_camera "hmirror" ;;
  put_camera (mkCamera (sensor_name c) (address c) (pixel_format c)
                (frame_size c) false (vflip c) (whitebal c)
                (exposure_ctrl c) (gain_ctrl c)) ;;;
  c <- get_camera "vflip" ;;
  put_camera (mkCamera (sensor_name c) (address c) (pixel_format c)
                (frame_size c) (hmirror c) true (whitebal c)
                (exposure_ctrl c) (gain_ctrl c)) ;;;
  if init_autofocus then autofocus_init else ret tt.

(** [MyCamera(init_autofocus)] *)
Definition MyCamera (init_autofocus : bool) : M unit :=
  __init__ ;;; init_camera init_autofocus.

(** *** Autofocus engine *)

(** The polling loop of [_send_autofocus_command]. *)
Fixpoint poll_ack (n : nat) : M bool :=
  match n with
  | O => ret false
  | S k =>
      a <- read_camera_register _OV5640_CMD_ACK ;;
      if a =? 0x0 then ret true
      else sleep 10 ;;; poll_ack k
  end.

Definition _send_autofocus_command (command : Z) (msg : string) : M bool :=
  write_camera_register _OV5640_CMD_ACK 0x01 ;;;
  write_camera_register _OV5640_CMD_MAIN command ;;;
  poll_ack 100.

(** [[self.read_camera_register(_OV5640_CMD_PARA0 + i) for i in range(n)]] *)
Fixpoint read_registers (regs : list Z) : M (list Z) :=
  match regs with
  | [] => ret []
  | r :: rest =>
      v <- read_camera_register r ;;
      vs <- read_registers rest ;;
      ret (v :: vs)
  end.

(** [[False] * 5] is a list of five zeros: [False == 0]. *)
Definition autofocus : M (list Z) :=
  ok <- _send_autofocus_command _OV5640_CMD_RELEASE_FOCUS "release focus" ;;
  if negb ok then ret (repeat 0 5)
  else
    ok <- _send_autofocus_command _OV5640_CMD_TRIGGER_AUTOFOCUS "autofocus" ;;
    if negb ok then ret (repeat 0 5)
    else
      read_registers (map (fun i => _OV5640_CMD_PARA0 + i) (range 0 5 1)).

Definition autofocus_vcm_step : M (option Z) :=
  ok <- _send_autofocus_command _OV5640_CMD_AF_GET_VCM_STEP "get vcm step" ;;
  if negb ok then ret None
  else v <- read_camera_register _OV5640_CMD_PARA4 ;; ret (Some v).

Definition autofocus_vcm_step_setter (step : Z) : M unit :=
  if negb ((0 <=? step) && (step <=? 255))
  then raise (RuntimeError "VCM step must be 0 to 255")
  else
    write_camera_register _OV5640_CMD_PARA3 0x00 ;;;
    write_camera_register _OV5640_CMD_PARA4 step ;;;
    _send_autofocus_command _OV5640_CMD_AF_SET_VCM_STEP "set vcm step" ;;;
    ret tt.

(** *** Sensor pipeline *)

Definition get_resolution : M Z :=
  fun st => match _resolution st with
            | Some r => (Ok r, st)
            | None => (Raise (AttributeError "_resolution"), st)
            end.

Definition resolution : M Z := get_resolution.

Definition resolution_setter (res : value) : M unit :=
  res <- match res with
         | Str s =>
             if negb (contains s resolutions)
             then raise (RuntimeError "Invalid Resolution")
             else ret (Int (index s resolutions))
         | _ => ret res
         end ;;
  match res with
  | Int z =>
      let res := (z + len resolutions) mod len resolutions in
      fun st => (Ok tt, with_resolution (Some res) st)
  | _ => ret tt
  end.

(** [self.camera.reconfigure(pixel_format=..., frame_size=...)] *)
Definition camera_reconfigure (pf : PixelFormat) (fs : FrameSize) : M unit :=
  c <- get_camera "reconfigure" ;;
  put_camera (mkCamera (sensor_name c) (address c) pf fs (hmirror c)
                (vflip c) (whitebal c) (exposure_ctrl c) (gain_ctrl c)) ;;;
  log (Reconfigure pf fs).

(** [self.camera.take(1)]: the next frame, or [None]. *)
Definition camera_take : M (option (list Z)) :=
  get_camera "take" ;;;
  fun st => match frames st with
            | f :: rest => (Ok f, emit [Take f] (with_frames rest st))
            | [] => (Ok None, emit [Take None] st)
            end.

Definition capture_into_jpeg : M (option (list Z)) :=
  get_camera "reconfigure" ;;;
  r <- get_resolution ;;
  fs <- match getitem resolution_to_frame_size r with
        | Some fs => ret fs
        | None => raise IndexError
        end ;;
  camera_reconfigure JPEG fs ;;;
  sleep 100 ;;;
  camera_take.

Definition continuous_capture : M (option (list Z)) := camera_take.

Record Settings : Type := mkSettings {
  gain : Z;
  exposure : Z;
  wb : list Z
}.

Definition get_camera_autosettings : M Settings :=
  r0 <- read_camera_register 0x3500 ;;
  r1 <- read_camera_register 0x3501 ;;
  r2 <- read_camera_register 0x3502 ;;
  let exposure := Z.shiftl r0 12 + Z.shiftl r1 4 + Z.shiftr r2 4 in
  white_balance <-
    read_registers [0x3400; 0x3401; 0x3402; 0x3403; 0x3404; 0x3405] ;;
  g <- read_camera_register 0x350B ;;
  ret (mkSettings g exposure white_balance).

Definition set_camera_exposure (new_exposure : option Z) : M unit :=
  match new_exposure with
  | None =>
      c <- get_camera "exposure_ctrl" ;;
      put_camera (mkCamera (sensor_name c) (address c) (pixel_format c)
                    (frame_size c) (hmirror c) (vflip c) (whitebal c)
                    true (gain_ctrl c))
  | Some new_exposure =>
      c <- get_camera "exposure_ctrl" ;;
      put_camera (mkCamera (sensor_name c) (address c) (pixel_format c)
                    (frame_size c) (hmirror c) (vflip c) (whitebal c)
                    false (gain_ctrl c)) ;;;
      write_camera_register 0x3500 (Z.land (Z.shiftr new_exposure 12) 0xFF) ;;;
      write_camera_register 0x3501 (Z.land (Z.shiftr new_exposure 4) 0xFF) ;;;
      write_camera_register 0x3502 (Z.land (Z.shiftl new_exposure 4) 0xFF)
  end.

End Driver.

Arguments St D : clear implicits.
Arguments M D A : clear implicits.

Notation "x <- m ;; k" := (bind m (fun x => k))
  (at level 61, m at next level, right associativity).
Notation "m ;;; k" := (bind m (fun _ => k))
  (at level 61, right associativity).

(** ** Observations on traces *)

(** The events of one acknowledge poll that did not read zero: the address
    frame of the read, the byte read, and the 10 ms pause that follows. *)
Definition ack_address : event :=
  I2CWrite [Z.shiftr _OV5640_CMD_ACK 8; Z.land _OV5640_CMD_ACK 0xFF].

Definition polls (answers : list Z) : list event :=
  flat_map (fun a => [ack_address; I2CRead a; Sleep 10]) answers.

(** The frame of a single-register write. *)
Definition reg_write (reg value : Z) : event :=
  I2CWrite [Z.shiftr reg 8; Z.land reg 0xFF; value].

(** The frame and the answer of a single-register read. *)
Definition reg_read (reg value : Z) : list event :=
  [I2CWrite [Z.shiftr reg 8; Z.land reg 0xFF]; I2CRead value].

(** Number of bus reads and total time slept in a trace. *)
Definition is_read (e : event) : bool :=
  match e with I2CRead _ => true | _ => false end.

Definition reads (es : list event) : nat := List.length (filter is_read es).

Fixpoint slept (es : list event) : Z :=
  match es with
  | [] => 0
  | Sleep ms :: r => ms + slept r
  | _ :: r => slept r
  end.

(** The register writes (three-byte frames) of a trace, as (address, value). *)
Fixpoint register_writes (es : list event) : list (Z * Z) :=
  match es with
  | [] => []
  | I2CWrite [hi; lo; v] :: r => (hi * 256 + lo, v) :: register_writes r
  | _ :: r => register_writes r
  end.

Definition nonzero (a : Z) : bool := negb (a =? 0).

(** The events of a command handshake that is acknowledged after the
    nonzero answers [nz], and of one that is given up after [answers]. *)
Definition acknowledged (command : Z) (nz : list Z) : list event :=
  [reg_write _OV5640_CMD_ACK 0x01; reg_write _OV5640_CMD_MAIN command]
  ++ polls nz ++ reg_read _OV5640_CMD_ACK 0.

Definition given_up (command : Z) (answers : list Z) : list event :=
  [reg_write _OV5640_CMD_ACK 0x01; reg_write _OV5640_CMD_MAIN command]
  ++ polls answers.

(** The five zone registers read by [autofocus]. *)
Definition zone_registers : list Z :=
  [_OV5640_CMD_PARA0; _OV5640_CMD_PARA1; _OV5640_CMD_PARA2;
   _OV5640_CMD_PARA3; _OV5640_CMD_PARA4].

Definition zone_reads (zones : list Z) : list event :=
  List.concat (map (fun rv => reg_read (fst rv) (snd rv))
                 (combine zone_registers zones)).

(** A driver object as [init_camera] leaves it: an OV5640 found at I2C
    address 0x3C and bound to the device [d]; no resolution selected. *)
Definition ov5640 : Camera :=
  mkCamera "OV5640" 0x3C RGB565 HQVGA false true true true true.

Definition initialised {D : Type} (d : D) : St D :=
  mkSt (Some 0x3C) (Some ov5640) None d ("OV5640"%string, 0x3C) None [] [].

(** A new object, before [__init__]: nothing assigned yet; an OV5640 is
    attached at address 0x3C behind the device [d], and
    [ov5640_autofocus.bin] holds [firmware]. *)
Definition new_object {D : Type} (d : D) (firmware : list Z) : St D :=
  mkSt None None None d ("OV5640"%string, 0x3C) (Some firmware) [] [].

(** The (register, value) pairs of a register program. *)
Fixpoint pairs (reg_list : list Z) : list (Z * Z) :=
  match reg_list with
  | register :: value :: rest => (register, value) :: pairs rest
  | _ => []
  end.

Definition is_delay (p : Z * Z) : bool := fst p =? _REG_DLY.

(** A register program: an even number of entries; a delay entry carries a
    duration that is not negative and that [time.sleep] accepts, any other
    entry a 16-bit address and a byte. *)
Definition entry_ok (p : Z * Z) : bool :=
  if is_delay p then (0 <=? snd p) && (snd p <=? sleep_limit)
  else (0 <=? fst p) && (fst p <? 0x10000) && is_byte (snd p).


(** What one entry of a program asks for. *)
Definition entry_effect (p : Z * Z) : event :=
  if is_delay p then Sleep (snd p) else reg_write (fst p) (snd p).


(** The [k]-th piece of a firmware image cut every 254 bytes, the address
    it is loaded at, and the bus frame that carries it: the address, high
    byte first, then the piece. *)
Definition chunk (firmware : list Z) (k : nat) : list Z :=
  firstn 254 (skipn (254 * k) firmware).

Definition chunk_address (k : nat) : Z := 0x8000 + 254 * Z.of_nat k.

Definition chunk_frame (firmware : list Z) (k : nat) : event :=
  I2CWrite (Z.shiftr (chunk_address k) 8
            :: Z.land (chunk_address k) 0xFF
            :: chunk firmware k).

(** [ceil(L / 254)] for a firmware of [L] bytes. *)
Definition chunk_count (firmware : list Z) : nat :=
  Z.to_nat ((len firmware + 253) / 254).

(** A computation that neither assigns [_resolution] nor resets
    [camera] to [None]. *)
Definition keeps {D A : Type} (m : M D A) : Prop :=
  forall st r st',
    m st = (r, st') ->
    _resolution st' = _resolution st
    /\ (camera st <> None -> camera st' <> None).

(** ** The state algebra *)

Section StateLemmas.

Context {D : Type} {device : I2CDevice D}.
Implicit Types st : St D.

Lemma emit_emit st es1 es2 :
  emit es2 (emit es1 st) = emit (es1 ++ es2) st.
Proof. unfold emit; simpl. now rewrite app_assoc. Qed.

Lemma emit_nil st : emit [] st = st.
Proof. destruct st; unfold emit; simpl. now rewrite app_nil_r. Qed.

Lemma with_bus_emit st d es :
  with_bus d (emit es st) = emit es (with_bus d st).
Proof. reflexivity. Qed.

Lemma with_bus_with_bus st d1 d2 :
  with_bus d2 (with_bus d1 st) = with_bus d2 st.
Proof. reflexivity. Qed.

Lemma with_bus_same st : with_bus (bus st) st = st.
Proof. now destruct st. Qed.

Lemma land_255_byte (x : Z) : is_byte (Z.land x 0xFF) = true.
Proof.
  unfold is_byte. change 0xFF with (Z.ones 8). rewrite Z.land_ones by lia.
  pose proof (Z.mod_pos_bound x (2 ^ 8) ltac:(lia)) as Hb.
  change (2 ^ 8) with 256 in *.
  apply andb_true_intro; split; [apply Z.leb_le | apply Z.ltb_lt]; lia.
Qed.

Lemma sleep_run st ms :
  0 <= ms <= sleep_limit -> sleep ms st = (Ok tt, emit [Sleep ms] st).
Proof.
  intros H. unfold sleep.
  destruct (Z.ltb_spec sleep_limit (Z.abs ms)); [lia|].
  destruct (Z.ltb_spec ms 0); [lia | reflexivity].
Qed.

Lemma bind_ok {A B} (m : M D A) (k : A -> M D B) st a st' :
  m st = (Ok a, st') -> bind m k st = k a st'.
Proof. unfold bind; intros ->; reflexivity. Qed.

Lemma bind_raise {A B} (m : M D A) (k : A -> M D B) st e st' :
  m st = (Raise e, st') -> bind m k st = (Raise e, st').
Proof. unfold bind; intros ->; reflexivity. Qed.

End StateLemmas.

(** ** Resolution selection and JPEG capture *)

Section Pipeline.

Context {D : Type} {device : I2CDevice D}.
Implicit Types st : St D.

(** A capture with a selected resolution reconfigures the sensor to JPEG
    with the table's frame size, sleeps 100 ms and grabs one frame. *)
Lemma capture_into_jpeg_run st c r fs :
  camera st = Some c ->
  _resolution st = Some r ->
  getitem resolution_to_frame_size r = Some fs ->
  exists f st',
    capture_into_jpeg st = (Ok f, st')
    /\ trace st' = trace st ++ [Reconfigure JPEG fs; Sleep 100; Take f]
    /\ option_map pixel_format (camera st') = Some JPEG
    /\ option_map frame_size (camera st') = Some fs.
Proof.
  intros Hc Hr Hfs.
  destruct st as [dv cam res b att fw fr tr]. simpl in Hc, Hr. subst cam res.
  unfold capture_into_jpeg, bind, get_camera, get_resolution, ret,
    camera_reconfigure, bind, get_camera, put_camera, log, sleep,
    camera_take, get_camera, emit, with_camera, with_frames.
  cbn [camera _resolution]. rewrite Hfs. cbn.
  destruct fr as [|f rest].
  - exists None. eexists. split; [reflexivity|]. cbn.
    now rewrite <- !app_assoc.
  - exists f. eexists. split; [reflexivity|]. cbn.
    now rewrite <- !app_assoc.
Qed.

(** C7. Selecting a resolution by integer index never fails: for every
    integer the stored index is the integer reduced modulo the length of
    the resolution table, and lies in [0, table size). *)
Theorem resolution_setter_index_total st (z : Z) :
  exists r,
    resolution_setter (Int z) st = (Ok tt, with_resolution (Some r) st)
    /\ r = z mod len resolutions
    /\ 0 <= r < len resolutions.
Proof.
  exists ((z + len resolutions) mod len resolutions). split; [reflexivity|].
  change (len resolutions) with 13. split.
  - rewrite <- (Z.mul_1_l 13) at 1. now rewrite Z.mod_add by lia.
  - apply Z.mod_pos_bound. lia.
Qed.

Lemma resolution_setter_by_name st i name :
  nth_error resolutions i = Some name ->
  resolution_setter (Str name) st = resolution_setter (Int (Z.of_nat i)) st.
Proof.
  intros H. unfold resolutions in H.
  do 13 (destruct i as [|i];
         [injection H as <-; reflexivity | cbn [nth_error] in H]).
  destruct i; discriminate.
Qed.

(** C1 (amended). Selecting "800x600" by name and then capturing a JPEG
    reconfigures the sensor with frame size SVGA; selecting index 3, the
    position of "800x600" in the table, does the same; and for every
    entry of the table, selecting it by name and by its index agree. *)
Theorem select_800x600_then_capture st c :
  camera st = Some c ->
  (exists f st',
      bind (resolution_setter (Str "800x600")) (fun _ => capture_into_jpeg) st
      = (Ok f, st')
      /\ trace st' = trace st ++ [Reconfigure JPEG SVGA; Sleep 100; Take f])
  /\
  (exists f st',
      bind (resolution_setter (Int 3)) (fun _ => capture_into_jpeg) st
      = (Ok f, st')
      /\ trace st' = trace st ++ [Reconfigure JPEG SVGA; Sleep 100; Take f])
  /\ nth_error resolutions 3 = Some "800x600"%string
  /\ (forall i name,
         nth_error resolutions i = Some name ->
         resolution_setter (Str name) st
         = resolution_setter (Int (Z.of_nat i)) st).
Proof.
  intros Hc.
  assert (H3 : exists f st',
             bind (resolution_setter (Int 3)) (fun _ => capture_into_jpeg) st
             = (Ok f, st')
             /\ trace st' = trace st ++ [Reconfigure JPEG SVGA; Sleep 100; Take f]).
  { destruct (capture_into_jpeg_run (with_resolution (Some 3) st) c 3 SVGA
                Hc eq_refl eq_refl) as (f & st' & Hrun & Ht & _).
    exists f, st'. split; [|exact Ht].
    apply eq_trans with (capture_into_jpeg (with_resolution (Some 3) st));
      [reflexivity | exact Hrun]. }
  split; [|split; [exact H3 | split; [reflexivity|]]].
  - destruct H3 as (f & st' & Hrun & Ht). exists f, st'. split; [|exact Ht].
    unfold bind. rewrite (resolution_setter_by_name st 3 "800x600" eq_refl).
    exact Hrun.
  - intros i name. apply resolution_setter_by_name.
Qed.

End Pipeline.

(** A selection by index 2 is a selection of "640x480": the capture that
    follows configures VGA, not SVGA. *)
Lemma select_index_2_then_capture :
  let run := bind (resolution_setter (Int 2)) (fun _ => capture_into_jpeg)
               (initialised ([] : Scripted)) in
  fst run = Ok None
  /\ trace (snd run) = [Reconfigure JPEG VGA; Sleep 100; Take None]
  /\ ~ In (Reconfigure JPEG SVGA) (trace (snd run))
  /\ nth_error resolutions 2 = Some "640x480"%string.
Proof.
  repeat split.
  intros [H|[H|[H|[]]]]; discriminate.
Qed.

Lemma select_800x600_then_capture_witness :
  exists f st',
    bind (resolution_setter (Str "800x600")) (fun _ => capture_into_jpeg)
      (initialised ([] : Scripted))
    = (Ok f, st')
    /\ trace st' = [Reconfigure JPEG SVGA; Sleep 100; Take f].
Proof.
  exact (proj1 (select_800x600_then_capture (initialised ([] : Scripted))
                  ov5640 eq_refl)).
Defined.

(** ** Construction leaves no resolution selected *)

Section Construction.

Context {D : Type} {device : I2CDevice D}.
Implicit Types st : St D.

Local Abbreviation keeps := (@keeps D _).

Lemma keeps_ret {A} (a : A) : keeps (ret a).
Proof. intros st r st' H; injection H as <- <-; auto. Qed.

Lemma keeps_raise {A} e : keeps (raise (A := A) e).
Proof. intros st r st' H; injection H as <- <-; auto. Qed.

Lemma keeps_bind {A B} (m : M D A) (k : A -> M D B) :
  keeps m -> (forall a, keeps (k a)) -> keeps (bind m k).
Proof.
  intros Hm Hk st r st' H. unfold bind in H.
  destruct (m st) as [[a|e] st1] eqn:E.
  - destruct (Hm _ _ _ E) as [R1 C1], (Hk a _ _ _ H) as [R2 C2].
    split; [congruence | auto].
  - injection H as <- <-. exact (Hm _ _ _ E).
Qed.

Lemma keeps_log e : keeps (log e).
Proof. intros st r st' H; injection H as <- <-; auto. Qed.

Lemma keeps_sleep ms : keeps (sleep ms).
Proof.
  unfold sleep. destruct (sleep_limit <? Z.abs ms); [apply keeps_raise|].
  destruct (ms <? 0); [apply keeps_raise | apply keeps_log].
Qed.

Lemma keeps_bytearray_set b i v : keeps (bytearray_set b i v).
Proof.
  unfold bytearray_set. destruct (is_byte v);
    [apply keeps_ret | apply keeps_raise].
Qed.

Lemma keeps_enter_camera_device : keeps enter_camera_device.
Proof.
  intros st r st' H. unfold enter_camera_device in H.
  destruct (_camera_device st); injection H as <- <-; auto.
Qed.

Lemma keeps_bus_write frame : keeps (bus_write frame).
Proof.
  intros st r st' H. unfold bus_write in H.
  destruct (i2c_write frame (bus st)); injection H as <- <-; auto.
Qed.

Lemma keeps_bus_readinto : keeps bus_readinto.
Proof.
  intros st r st' H. unfold bus_readinto in H.
  destruct (i2c_readinto (bus st)) as [[v d]|]; injection H as <- <-; auto.
Qed.

Lemma keeps_probe_for_device : keeps probe_for_device.
Proof.
  intros st r st' H. unfold probe_for_device in H.
  destruct (i2c_write [] (bus st)); [injection H as <- <-; auto|].
  destruct (i2c_readinto (bus st)) as [[v d]|]; injection H as <- <-; auto.
Qed.

Lemma keeps_get_camera attr : keeps (get_camera attr).
Proof.
  intros st r st' H. unfold get_camera in H.
  destruct (camera st) eqn:E; injection H as <- <-;
    (split; [reflexivity | now rewrite E]).
Qed.

Lemma keeps_put_camera c : keeps (put_camera c).
Proof.
  intros st r st' H; injection H as <- <-. split; [reflexivity|].
  discriminate.
Qed.

Create HintDb keeps.

#[local] Hint Resolve keeps_ret keeps_raise keeps_log keeps_sleep keeps_bytearray_set
  keeps_enter_camera_device keeps_bus_write keeps_bus_readinto
  keeps_get_camera keeps_put_camera : keeps.

Ltac keeps_steps :=
  repeat (first [ apply keeps_bind; [|intros ?] | solve [auto with keeps] ]).

Lemma keeps_write_camera_register reg v : keeps (write_camera_register reg v).
Proof. unfold write_camera_register. keeps_steps. Qed.

Lemma keeps_read_camera_register reg : keeps (read_camera_register reg).
Proof. unfold read_camera_register. keeps_steps. Qed.

#[local] Hint Resolve keeps_write_camera_register keeps_read_camera_register : keeps.

Lemma keeps_write_camera_list reg_list : keeps (write_camera_list reg_list).
Proof.
  enough (H : keeps (write_camera_list reg_list)
              /\ forall x, keeps (write_camera_list (x :: reg_list)))
    by exact (proj1 H).
  induction reg_list as [|y l [IH1 IH2]].
  - split; [apply keeps_ret | intros x; apply keeps_raise].
  - split; [apply IH2|]. intros x. cbn [write_camera_list].
    apply keeps_bind; [|intros _; exact IH1].
    destruct (x =? _REG_DLY); auto with keeps.
Qed.

Lemma keeps_upload_chunks offsets firmware :
  forall arr, keeps (upload_chunks offsets firmware arr).
Proof.
  induction offsets as [|offset rest IH]; intros arr; cbn [upload_chunks].
  - apply keeps_ret.
  - keeps_steps.
Qed.

Lemma keeps_wait_idle n : keeps (wait_idle n).
Proof.
  induction n as [|n IH]; cbn [wait_idle]; [apply keeps_raise|].
  apply keeps_bind; [apply keeps_read_camera_register | intros s].
  destruct (s =? _OV5640_STAT_IDLE); [apply keeps_ret|].
  apply keeps_bind; [apply keeps_sleep | intros _; exact IH].
Qed.

Lemma keeps_autofocus_init : keeps autofocus_init.
Proof.
  intros st r st' H.
  unfold autofocus_init, autofocus_init_from_file in H.
  destruct (firmware_file st) as [firmware|];
    [|injection H as <- <-; auto].
  revert st r st' H. fold (keeps (autofocus_init_from_bitstream firmware)).
  unfold autofocus_init_from_bitstream.
  apply keeps_bind; [apply keeps_get_camera | intros c].
  destruct (negb _); [apply keeps_raise|].
  apply keeps_bind; [apply keeps_write_camera_register | intros _].
  apply keeps_bind; [apply keeps_sleep | intros _].
  apply keeps_bind; [|intros _].
  { unfold upload_firmware.
    apply keeps_bind; [apply keeps_enter_camera_device | intros _].
    apply keeps_upload_chunks. }
  apply keeps_bind; [apply keeps_write_camera_list | intros _].
  apply keeps_wait_idle.
Qed.

(** Construction never assigns [_resolution], and leaves [camera] bound. *)
Lemma MyCamera_leaves_resolution_unset init_autofocus st r st' :
  MyCamera init_autofocus st = (r, st') ->
  _resolution st' = _resolution st /\ camera st' <> None.
Proof.
  unfold MyCamera, __init__, init_camera. unfold bind at 1 2.
  set (st1 := with_camera (Some _) (with_camera None (with_camera_device None st))).
  intros H.
  assert (K : keeps
    (c <- get_camera "address" ;;
     probe_for_device ;;;
     (fun st => (Ok tt, with_camera_device (Some (address c)) st)) ;;;
     c <- get_camera "hmirror" ;;
     put_camera (mkCamera (sensor_name c) (address c) (pixel_format c)
                   (frame_size c) false (vflip c) (whitebal c)
                   (exposure_ctrl c) (gain_ctrl c)) ;;;
     c <- get_camera "vflip" ;;
     put_camera (mkCamera (sensor_name c) (address c) (pixel_format c)
                   (frame_size c) (hmirror c) true (whitebal c)
                   (exposure_ctrl c) (gain_ctrl c)) ;;;
     if init_autofocus then autofocus_init else ret tt)).
  { apply keeps_bind; [apply keeps_get_camera | intros c].
    apply keeps_bind; [apply keeps_probe_for_device | intros _].
    apply keeps_bind; [|intros _].
    { intros s0 r0 s1 E; injection E as <- <-; auto. }
    apply keeps_bind; [apply keeps_get_camera | intros c1].
    apply keeps_bind; [apply keeps_put_camera | intros _].
    apply keeps_bind; [apply keeps_get_camera | intros c2].
    apply keeps_bind; [apply keeps_put_camera | intros _].
    destruct init_autofocus; [apply keeps_autofocus_init | apply keeps_ret]. }
  destruct (K st1 r st' H) as [R C]. split.
  - exact R.
  - apply C. discriminate.
Qed.

(** C2, evaluated on the code.  Whenever [MyCamera(...)] has completed, with
    or without the autofocus firmware load, on a new object, on which
    [_resolution] was never assigned, a [capture_into_jpeg] that follows
    directly raises [AttributeError] on [_resolution] and does nothing
    else: no reconfiguration, no sleep, no frame. *)
Theorem capture_right_after_construction init_autofocus st0 st1 :
  _resolution st0 = None ->
  MyCamera init_autofocus st0 = (Ok tt, st1) ->
  capture_into_jpeg st1 = (Raise (AttributeError "_resolution"), st1).
Proof.
  intros Hnew Hinit.
  destruct (MyCamera_leaves_resolution_unset _ _ _ _ Hinit) as [R C].
  rewrite Hnew in R.
  unfold capture_into_jpeg, bind, get_camera, get_resolution.
  destruct (camera st1); [|now elim C].
  now rewrite R.
Qed.

End Construction.

Lemma capture_right_after_construction_witness :
  let st1 := snd (MyCamera true (new_object [_OV5640_STAT_IDLE] (repeat 0xA5 600))) in
  fst (MyCamera true (new_object [_OV5640_STAT_IDLE] (repeat 0xA5 600))) = Ok tt
  /\ capture_into_jpeg st1 = (Raise (AttributeError "_resolution"), st1).
Proof.
  split; [vm_compute; reflexivity|].
  apply (capture_right_after_construction true
           (new_object [_OV5640_STAT_IDLE] (repeat 0xA5 600))).
  - reflexivity.
  - vm_compute. reflexivity.
Defined.

(** ** Cutting the firmware image *)

Section Chunking.

(** [range(start, stop, 254)] enumerates [start + 254 k] for [k] below
    [ceil((stop - start) / 254)]. *)
Lemma range_from_254 fuel : forall start stop,
  stop - start <= Z.of_nat fuel ->
  range_from fuel start stop 254
  = map (fun k => start + 254 * Z.of_nat k)
        (seq 0 (Z.to_nat ((stop - start + 253) / 254))).
Proof.
  induction fuel as [|fuel IH]; intros start stop Hfuel.
  - replace (Z.to_nat ((stop - start + 253) / 254)) with 0%nat; [reflexivity|].
    assert ((stop - start + 253) / 254 <= 0)
      by (apply Z.lt_succ_r, Z.div_lt_upper_bound; lia).
    lia.
  - cbn [range_from]. destruct (Z.ltb_spec start stop) as [Hlt|Hge].
    + rewrite IH by lia.
      replace (stop - start + 253) with (stop - (start + 254) + 253 + 1 * 254)
        by lia.
      rewrite Z.div_add by lia.
      assert (0 <= (stop - (start + 254) + 253) / 254)
        by (apply Z.div_pos; lia).
      rewrite Z2Nat.inj_add by lia.
      rewrite Nat.add_comm. change (Z.to_nat 1) with 1%nat.
      cbn [Nat.add seq map].
      f_equal; [lia|].
      rewrite <- seq_shift, map_map. apply map_ext. intros k. lia.
    + replace (Z.to_nat ((stop - start + 253) / 254)) with 0%nat;
        [reflexivity|].
      assert ((stop - start + 253) / 254 <= 0)
        by (apply Z.lt_succ_r, Z.div_lt_upper_bound; lia).
      lia.
Qed.

Lemma range_254 firmware :
  range 0 (len firmware) 254
  = map (fun k => 0 + 254 * Z.of_nat k) (seq 0 (chunk_count firmware)).
Proof.
  unfold range, chunk_count. rewrite range_from_254.
  - now rewrite Z.sub_0_r.
  - unfold len. lia.
Qed.

(** One turn of the loop on the 256-byte buffer: the buffer keeps its
    length and its first [2 + num] bytes are the address and the chunk. *)
Lemma chunk_buffer (arr firmware : list Z) (o : nat) (hi lo : Z) :
  List.length arr = 256%nat ->
  (o < List.length firmware)%nat ->
  let num := Z.min 254 (len firmware - Z.of_nat o) in
  let arr' := slice_assign (store 1 lo (store 0 hi arr)) 2 (2 + num)
                (slice firmware (Z.of_nat o) (Z.of_nat o + num)) in
  List.length arr' = 256%nat
  /\ slice arr' 0 (2 + num) = hi :: lo :: firstn 254 (skipn o firmware).
Proof.
  intros Harr Ho num arr'.
  destruct arr as [|a0 [|a1 tl]]; try discriminate.
  assert (Htl : List.length tl = 254%nat) by (simpl in Harr; lia).
  unfold len in num.
  set (n := Z.to_nat num).
  assert (Hn : n = Nat.min 254 (List.length firmware - o)) by (unfold n, num; lia).
  assert (Hxs : slice firmware (Z.of_nat o) (Z.of_nat o + num)
                = firstn 254 (skipn o firmware)).
  { unfold slice. rewrite Nat2Z.id.
    replace (Z.to_nat (Z.of_nat o + num - Z.of_nat o)) with n by (unfold n; lia).
    destruct (Nat.le_gt_cases 254 (List.length firmware - o)) as [Hbig|Hsmall].
    - now replace n with 254%nat by lia.
    - rewrite (firstn_all2 (n := n)) by (rewrite length_skipn; lia).
      now rewrite (firstn_all2 (n := 254)) by (rewrite length_skipn; lia). }
  assert (Hlen : List.length (firstn 254 (skipn o firmware)) = n)
    by (rewrite length_firstn, length_skipn; lia).
  subst arr'. rewrite Hxs. unfold slice_assign, slice.
  set (xs := firstn 254 (skipn o firmware)) in *.
  replace (Z.to_nat (2 + num)) with (S (S n)) by (unfold n, num; lia).
  replace (Z.to_nat (2 + num - 0)) with (S (S n)) by (unfold n, num; lia).
  change (Z.to_nat 2) with 2%nat. change (Z.to_nat 0) with 0%nat.
  cbn [store firstn skipn app].
  split.
  - cbn [List.length]. rewrite length_app, Hlen, length_skipn. lia.
  - do 2 f_equal. rewrite firstn_app, Hlen, Nat.sub_diag.
    cbn [firstn]. rewrite app_nil_r.
    apply firstn_all2. lia.
Qed.

(** The pieces put back together give the image. *)
Lemma chunks_concat n : forall firmware,
  (List.length firmware <= 254 * n)%nat ->
  List.concat (map (chunk firmware) (seq 0 n)) = firmware.
Proof.
  induction n as [|n IH]; intros firmware Hlen.
  - destruct firmware; [reflexivity | simpl in Hlen; lia].
  - cbn [seq map List.concat]. rewrite <- seq_shift, map_map.
    rewrite (map_ext _ (chunk (skipn 254 firmware))).
    + rewrite IH by (rewrite length_skipn; lia).
      unfold chunk. rewrite Nat.mul_0_r. cbn [skipn].
      apply firstn_skipn.
    + intros k. unfold chunk. rewrite skipn_skipn. do 2 f_equal. lia.
Qed.

Lemma chunk_count_spec firmware :
  let n := chunk_count firmware in
  (List.length firmware <= 254 * n)%nat
  /\ (forall k, (k < n)%nat -> (254 * k < List.length firmware)%nat).
Proof.
  unfold chunk_count, len.
  set (L := List.length firmware).
  pose proof (Z.div_mod (Z.of_nat L + 253) 254 ltac:(lia)) as Hdm.
  pose proof (Z.mod_pos_bound (Z.of_nat L + 253) 254 ltac:(lia)) as Hm.
  assert (0 <= (Z.of_nat L + 253) / 254) by (apply Z.div_pos; lia).
  split; [lia | intros k Hk; lia].
Qed.

Lemma chunk_length firmware k :
  List.length (chunk firmware k)
  = Nat.min 254 (List.length firmware - 254 * k).
Proof. unfold chunk. now rewrite length_firstn, length_skipn. Qed.

End Chunking.

(** ** The driver against a scripted device *)

Section ScriptedRuns.

Implicit Types st : St Scripted.

Lemma write_camera_register_run st a reg v :
  _camera_device st = Some a ->
  is_byte (Z.shiftr reg 8) = true ->
  is_byte v = true ->
  write_camera_register reg v st = (Ok tt, emit [reg_write reg v] st).
Proof.
  intros Ha Hr Hv. unfold write_camera_register, bind, bytearray_set.
  rewrite Hr, land_255_byte, Hv. unfold ret, enter_camera_device.
  rewrite Ha. unfold bus_write; simpl.
  now rewrite with_bus_same.
Qed.

Lemma read_camera_register_run st a reg v s :
  _camera_device st = Some a ->
  is_byte (Z.shiftr reg 8) = true ->
  bus st = v :: s ->
  read_camera_register reg st
  = (Ok v, emit (reg_read reg v) (with_bus s st)).
Proof.
  intros Ha Hr Hs. unfold read_camera_register, bind, bytearray_set.
  rewrite Hr, land_255_byte. unfold ret, enter_camera_device.
  rewrite Ha. unfold bus_write; simpl. rewrite with_bus_same.
  unfold bus_readinto; simpl. rewrite Hs.
  now rewrite with_bus_emit, emit_emit.
Qed.

Lemma read_camera_register_silent st a reg :
  _camera_device st = Some a ->
  is_byte (Z.shiftr reg 8) = true ->
  bus st = [] ->
  read_camera_register reg st
  = (Raise OSError,
     emit [I2CWrite [Z.shiftr reg 8; Z.land reg 0xFF]] st).
Proof.
  intros Ha Hr Hs. unfold read_camera_register, bind, bytearray_set.
  rewrite Hr, land_255_byte. unfold ret, enter_camera_device.
  rewrite Ha. unfold bus_write; simpl. rewrite with_bus_same.
  unfold bus_readinto; simpl. now rewrite Hs.
Qed.

Lemma write_camera_register_bind {B} (k : unit -> M Scripted B) st a reg v :
  _camera_device st = Some a ->
  is_byte (Z.shiftr reg 8) = true ->
  is_byte v = true ->
  bind (write_camera_register reg v) k st = k tt (emit [reg_write reg v] st).
Proof.
  intros Ha Hr Hv. apply bind_ok. now apply write_camera_register_run with a.
Qed.

Lemma read_camera_register_bind {B} (k : Z -> M Scripted B) st a reg v s :
  _camera_device st = Some a ->
  is_byte (Z.shiftr reg 8) = true ->
  bus st = v :: s ->
  bind (read_camera_register reg) k st
  = k v (emit (reg_read reg v) (with_bus s st)).
Proof.
  intros Ha Hr Hs. apply bind_ok. now apply read_camera_register_run with a.
Qed.

Lemma sleep_bind {B} (k : unit -> M Scripted B) st ms :
  0 <= ms <= sleep_limit -> bind (sleep ms) k st = k tt (emit [Sleep ms] st).
Proof. intros H. apply bind_ok. now apply sleep_run. Qed.

(** The acknowledge register stays nonzero for all [n] polls. *)
Lemma poll_ack_exhausted n : forall st a s,
  _camera_device st = Some a ->
  bus st = s ->
  (n <= List.length s)%nat ->
  forallb nonzero (firstn n s) = true ->
  poll_ack n st
  = (Ok false, emit (polls (firstn n s)) (with_bus (skipn n s) st)).
Proof.
  induction n as [|n IH]; intros st a s Ha Hs Hlen Hnz.
  - simpl. unfold ret. subst s. now rewrite with_bus_same, emit_nil.
  - destruct s as [|v s]; [simpl in Hlen; lia|].
    simpl in Hnz. apply andb_prop in Hnz as [Hv Hrest].
    cbn [poll_ack].
    rewrite (bind_ok _ _ _ _ _
               (read_camera_register_run st a _OV5640_CMD_ACK v s Ha eq_refl Hs)).
    unfold nonzero in Hv. destruct (v =? 0x0); [discriminate|].
    rewrite (bind_ok _ _ _ _ _ (sleep_run _ 10 ltac:(unfold sleep_limit; lia))).
    rewrite (IH _ a s); try easy.
    + rewrite emit_emit, with_bus_emit, with_bus_with_bus, emit_emit.
      reflexivity.
    + simpl in Hlen; lia.
Qed.

(** The acknowledge register reads zero within the [n] polls. *)
Lemma poll_ack_acknowledged n : forall st a nz rest,
  _camera_device st = Some a ->
  bus st = nz ++ 0 :: rest ->
  (List.length nz < n)%nat ->
  forallb nonzero nz = true ->
  poll_ack n st
  = (Ok true,
     emit (polls nz ++ reg_read _OV5640_CMD_ACK 0) (with_bus rest st)).
Proof.
  induction n as [|n IH]; intros st a nz rest Ha Hs Hlen Hnz; [lia|].
  cbn [poll_ack]. destruct nz as [|v nz].
  - rewrite (bind_ok _ _ _ _ _
               (read_camera_register_run st a _OV5640_CMD_ACK 0 rest Ha eq_refl Hs)).
    reflexivity.
  - simpl in Hnz. apply andb_prop in Hnz as [Hv Hrest].
    rewrite (bind_ok _ _ _ _ _
               (read_camera_register_run st a _OV5640_CMD_ACK v _ Ha eq_refl Hs)).
    unfold nonzero in Hv. destruct (v =? 0x0); [discriminate|].
    rewrite (bind_ok _ _ _ _ _ (sleep_run _ 10 ltac:(unfold sleep_limit; lia))).
    rewrite (IH _ a nz rest); try easy.
    + rewrite emit_emit, with_bus_emit, with_bus_with_bus, emit_emit.
      reflexivity.
    + simpl in Hlen; lia.
Qed.

Lemma reads_polls l : reads (polls l) = List.length l.
Proof.
  unfold reads. induction l as [|v l IH]; simpl; [reflexivity|].
  now f_equal.
Qed.

Lemma slept_polls l : slept (polls l) = 10 * len l.
Proof.
  unfold len. induction l as [|v l IH]; [reflexivity|].
  cbn [polls flat_map app slept ack_address List.length].
  fold (polls l). rewrite IH. lia.
Qed.

Lemma send_autofocus_command_exhausted st a command msg s :
  _camera_device st = Some a ->
  is_byte command = true ->
  bus st = s ->
  (100 <= List.length s)%nat ->
  forallb nonzero (firstn 100 s) = true ->
  _send_autofocus_command command msg st
  = (Ok false,
     emit ([reg_write _OV5640_CMD_ACK 0x01; reg_write _OV5640_CMD_MAIN command]
           ++ polls (firstn 100 s))
          (with_bus (skipn 100 s) st)).
Proof.
  intros Ha Hc Hs Hlen Hnz. unfold _send_autofocus_command.
  rewrite write_camera_register_bind with (a := a) by easy.
  rewrite write_camera_register_bind with (a := a) by easy.
  rewrite poll_ack_exhausted with (a := a) (s := s) by easy.
  now rewrite !emit_emit, with_bus_emit, emit_emit.
Qed.

Lemma send_autofocus_command_acknowledged st a command msg nz rest :
  _camera_device st = Some a ->
  is_byte command = true ->
  bus st = nz ++ 0 :: rest ->
  (List.length nz < 100)%nat ->
  forallb nonzero nz = true ->
  _send_autofocus_command command msg st
  = (Ok true,
     emit ([reg_write _OV5640_CMD_ACK 0x01; reg_write _OV5640_CMD_MAIN command]
           ++ polls nz ++ reg_read _OV5640_CMD_ACK 0)
          (with_bus rest st)).
Proof.
  intros Ha Hc Hs Hlen Hnz. unfold _send_autofocus_command.
  rewrite write_camera_register_bind with (a := a) by easy.
  rewrite write_camera_register_bind with (a := a) by easy.
  rewrite poll_ack_acknowledged with (a := a) (nz := nz) (rest := rest) by easy.
  now rewrite !emit_emit, with_bus_emit, emit_emit.
Qed.

Lemma register_writes_app es1 es2 :
  register_writes (es1 ++ es2) = register_writes es1 ++ register_writes es2.
Proof.
  induction es1 as [|e es1 IH]; [reflexivity|].
  destruct e as [f| | | |]; simpl; try exact IH.
  destruct f as [|x [|y [|z [|w f]]]]; simpl; try exact IH.
  now rewrite IH.
Qed.

Lemma register_writes_polls l : register_writes (polls l) = [].
Proof. induction l as [|v l IH]; [reflexivity | exact IH]. Qed.

(** Whatever the device answers, the polling loop issues no register write. *)
Lemma poll_ack_quiet n : forall st a,
  _camera_device st = Some a ->
  exists r s' es,
    poll_ack n st = (r, emit es (with_bus s' st)) /\ register_writes es = [].
Proof.
  induction n as [|n IH]; intros st a Ha.
  - exists (Ok false), (bus st), []. simpl. unfold ret.
    now rewrite with_bus_same, emit_nil.
  - cbn [poll_ack]. destruct (bus st) as [|v s] eqn:Hs.
    + exists (Raise OSError), (bus st),
        [I2CWrite [Z.shiftr _OV5640_CMD_ACK 8; Z.land _OV5640_CMD_ACK 0xFF]].
      split; [|reflexivity].
      rewrite with_bus_same. apply bind_raise.
      now apply read_camera_register_silent with a.
    + rewrite read_camera_register_bind with (a := a) (v := v) (s := s) by easy.
      destruct (v =? 0x0).
      * exists (Ok true), s, (reg_read _OV5640_CMD_ACK v). now split.
      * rewrite sleep_bind by (unfold sleep_limit; lia).
        destruct (IH (emit [Sleep 10]
                        (emit (reg_read _OV5640_CMD_ACK v) (with_bus s st))) a Ha)
          as (r & s' & es & Hrun & Hw).
        exists r, s', (reg_read _OV5640_CMD_ACK v ++ [Sleep 10] ++ es).
        split.
        -- eapply eq_trans; [exact Hrun|].
           now rewrite !with_bus_emit, with_bus_with_bus, !emit_emit.
        -- rewrite !register_writes_app, Hw. reflexivity.
Qed.

Lemma read_registers_run rs : forall st a vs rest,
  _camera_device st = Some a ->
  List.length vs = List.length rs ->
  forallb (fun r => is_byte (Z.shiftr r 8)) rs = true ->
  bus st = vs ++ rest ->
  read_registers rs st
  = (Ok vs,
     emit (List.concat (map (fun rv => reg_read (fst rv) (snd rv)) (combine rs vs)))
          (with_bus rest st)).
Proof.
  induction rs as [|r rs IH]; intros st a vs rest Ha Hlen Hb Hs.
  - destruct vs; [|discriminate]. simpl in *. unfold ret.
    subst rest. now rewrite with_bus_same, emit_nil.
  - destruct vs as [|v vs]; [discriminate|].
    simpl in Hb. apply andb_prop in Hb as [Hr Hrs].
    cbn [read_registers].
    rewrite read_camera_register_bind with (a := a) (v := v) (s := vs ++ rest)
      by easy.
    assert (Hn : List.length vs = List.length rs) by (simpl in Hlen; lia).
    rewrite (bind_ok _ _ _ _ _
               (IH (emit (reg_read r v) (with_bus (vs ++ rest) st))
                   a vs rest Ha Hn Hrs eq_refl)).
    unfold ret.
    now rewrite with_bus_emit, with_bus_with_bus, emit_emit.
Qed.

Lemma reads_app es1 es2 : reads (es1 ++ es2) = (reads es1 + reads es2)%nat.
Proof. unfold reads. now rewrite filter_app, length_app. Qed.

Lemma slept_app es1 es2 : slept (es1 ++ es2) = slept es1 + slept es2.
Proof.
  induction es1 as [|e es1 IH]; [reflexivity|].
  destruct e; simpl; rewrite IH; lia.
Qed.

(** C5. The command handshake writes 0x01 to the acknowledge register
    ("clear command ack"), then the opcode to the main command register,
    then polls the acknowledge register.  If the register reads zero at
    one of the first 100 polls the result is [True] and polling stops
    there; every earlier poll is followed by a 10 ms sleep.  If it reads
    nonzero at all 100 polls the result is [False] (no exception), after
    exactly 100 reads and 100 sleeps of 10 ms, 1000 ms in all. *)
Theorem send_autofocus_command_handshake st a command msg :
  _camera_device st = Some a ->
  is_byte command = true ->
  (forall nz rest,
      bus st = nz ++ 0 :: rest ->
      (List.length nz < 100)%nat ->
      forallb nonzero nz = true ->
      _send_autofocus_command command msg st
      = (Ok true, emit (acknowledged command nz) (with_bus rest st)))
  /\
  ((100 <= List.length (bus st))%nat ->
   forallb nonzero (firstn 100 (bus st)) = true ->
   let es := given_up command (firstn 100 (bus st)) in
   _send_autofocus_command command msg st
   = (Ok false, emit es (with_bus (skipn 100 (bus st)) st))
   /\ reads es = 100%nat
   /\ slept es = 1000).
Proof.
  intros Ha Hc. split.
  - intros nz rest Hs Hlen Hnz.
    now apply send_autofocus_command_acknowledged with a.
  - intros Hlen Hnz es. split; [|split].
    + now apply send_autofocus_command_exhausted with a.
    + unfold es, given_up.
      rewrite reads_app, reads_polls, length_firstn, Nat.min_l by lia.
      reflexivity.
    + unfold es, given_up. rewrite slept_app, slept_polls.
      unfold len. rewrite length_firstn, Nat.min_l by lia.
      reflexivity.
Qed.

Lemma send_autofocus_command_handshake_witness :
  _send_autofocus_command _OV5640_CMD_RELEASE_FOCUS "release focus"
    (initialised [1; 1; 0; 7])
  = (Ok true,
     emit (acknowledged _OV5640_CMD_RELEASE_FOCUS [1; 1])
          (with_bus [7] (initialised [1; 1; 0; 7])))
  /\
  (let st := initialised (repeat 1 100 ++ [0]) in
   let es := given_up _OV5640_CMD_RELEASE_FOCUS (firstn 100 (bus st)) in
   _send_autofocus_command _OV5640_CMD_RELEASE_FOCUS "release focus" st
   = (Ok false, emit es (with_bus (skipn 100 (bus st)) st))
   /\ reads es = 100%nat
   /\ slept es = 1000).
Proof.
  split.
  - apply (proj1 (send_autofocus_command_handshake
                    (initialised [1; 1; 0; 7]) 0x3C
                    _OV5640_CMD_RELEASE_FOCUS "release focus"
                    eq_refl eq_refl) [1; 1] [7]);
      [reflexivity | simpl; lia | reflexivity].
  - apply (proj2 (send_autofocus_command_handshake
                    (initialised (repeat 1 100 ++ [0])) 0x3C
                    _OV5640_CMD_RELEASE_FOCUS "release focus"
                    eq_refl eq_refl));
      [simpl; lia | reflexivity].
Defined.

(** C4. [autofocus] runs the ReleaseFocus handshake and then the
    TriggerSingleShot handshake.  If the release is not acknowledged it
    returns five zeros and the only register writes issued are those of
    the release handshake: the trigger opcode is never written.  If the
    release is acknowledged and the trigger is not, it returns five zeros
    as well.  If both are acknowledged it returns the values read, in
    order, from the five parameter registers 0x3024..0x3028. *)
Theorem autofocus_short_circuit st a :
  _camera_device st = Some a ->
  ((100 <= List.length (bus st))%nat ->
   forallb nonzero (firstn 100 (bus st)) = true ->
   let es := given_up _OV5640_CMD_RELEASE_FOCUS (firstn 100 (bus st)) in
   autofocus st
   = (Ok [0; 0; 0; 0; 0], emit es (with_bus (skipn 100 (bus st)) st))
   /\ register_writes es
      = [(_OV5640_CMD_ACK, 0x01); (_OV5640_CMD_MAIN, _OV5640_CMD_RELEASE_FOCUS)])
  /\
  (forall nz s,
      bus st = nz ++ 0 :: s ->
      (List.length nz < 100)%nat ->
      forallb nonzero nz = true ->
      (100 <= List.length s)%nat ->
      forallb nonzero (firstn 100 s) = true ->
      autofocus st
      = (Ok [0; 0; 0; 0; 0],
         emit (acknowledged _OV5640_CMD_RELEASE_FOCUS nz
               ++ given_up _OV5640_CMD_TRIGGER_AUTOFOCUS (firstn 100 s))
              (with_bus (skipn 100 s) st)))
  /\
  (forall nz1 nz2 zones rest,
      bus st = nz1 ++ 0 :: nz2 ++ 0 :: zones ++ rest ->
      (List.length nz1 < 100)%nat ->
      forallb nonzero nz1 = true ->
      (List.length nz2 < 100)%nat ->
      forallb nonzero nz2 = true ->
      List.length zones = 5%nat ->
      autofocus st
      = (Ok zones,
         emit (acknowledged _OV5640_CMD_RELEASE_FOCUS nz1
               ++ acknowledged _OV5640_CMD_TRIGGER_AUTOFOCUS nz2
               ++ zone_reads zones)
              (with_bus rest st))).
Proof.
  intros Ha. split; [|split].
  - intros Hlen Hnz es. split.
    + unfold autofocus.
      rewrite (bind_ok _ _ _ _ _
                 (send_autofocus_command_exhausted st a _OV5640_CMD_RELEASE_FOCUS
                    "release focus" (bus st) Ha eq_refl eq_refl Hlen Hnz)).
      reflexivity.
    + unfold es, given_up.
      now rewrite register_writes_app, register_writes_polls.
  - intros nz s Hs Hlen Hnz Hlen2 Hnz2. unfold autofocus.
    rewrite (bind_ok _ _ _ _ _
               (send_autofocus_command_acknowledged st a _OV5640_CMD_RELEASE_FOCUS
                  "release focus" nz s Ha eq_refl Hs Hlen Hnz)).
    cbn [negb].
    rewrite (bind_ok _ _ _ _ _
               (send_autofocus_command_exhausted
                  (emit (acknowledged _OV5640_CMD_RELEASE_FOCUS nz) (with_bus s st))
                  a _OV5640_CMD_TRIGGER_AUTOFOCUS
                  "autofocus" s Ha eq_refl eq_refl Hlen2 Hnz2)).
    cbn [negb]. unfold ret.
    now rewrite with_bus_emit, with_bus_with_bus, emit_emit.
  - intros nz1 nz2 zones rest Hs Hl1 Hn1 Hl2 Hn2 Hz. unfold autofocus.
    rewrite (bind_ok _ _ _ _ _
               (send_autofocus_command_acknowledged st a _OV5640_CMD_RELEASE_FOCUS
                  "release focus" nz1 _ Ha eq_refl Hs Hl1 Hn1)).
    cbn [negb].
    rewrite (bind_ok _ _ _ _ _
               (send_autofocus_command_acknowledged
                  (emit (acknowledged _OV5640_CMD_RELEASE_FOCUS nz1)
                     (with_bus (nz2 ++ 0 :: zones ++ rest) st))
                  a _OV5640_CMD_TRIGGER_AUTOFOCUS
                  "autofocus" nz2 (zones ++ rest) Ha eq_refl eq_refl Hl2 Hn2)).
    cbn [negb].
    change (map (fun i => _OV5640_CMD_PARA0 + i) (range 0 5 1))
      with zone_registers.
    rewrite read_registers_run with (a := a) (vs := zones) (rest := rest)
      by easy.
    now rewrite !with_bus_emit, !with_bus_with_bus, !emit_emit.
Qed.

Lemma autofocus_short_circuit_witness :
  (let st := initialised (repeat 1 100) in
   let es := given_up _OV5640_CMD_RELEASE_FOCUS (firstn 100 (bus st)) in
   autofocus st
   = (Ok [0; 0; 0; 0; 0], emit es (with_bus (skipn 100 (bus st)) st))
   /\ register_writes es
      = [(_OV5640_CMD_ACK, 0x01); (_OV5640_CMD_MAIN, _OV5640_CMD_RELEASE_FOCUS)])
  /\
  autofocus (initialised ([1] ++ 0 :: repeat 1 100))
  = (Ok [0; 0; 0; 0; 0],
     emit (acknowledged _OV5640_CMD_RELEASE_FOCUS [1]
           ++ given_up _OV5640_CMD_TRIGGER_AUTOFOCUS
                (firstn 100 (repeat 1 100)))
          (with_bus (skipn 100 (repeat 1 100))
             (initialised ([1] ++ 0 :: repeat 1 100))))
  /\
  autofocus (initialised ([1] ++ 0 :: [2; 2] ++ 0 :: [16; 0; 16; 0; 0] ++ [9]))
  = (Ok [16; 0; 16; 0; 0],
     emit (acknowledged _OV5640_CMD_RELEASE_FOCUS [1]
           ++ acknowledged _OV5640_CMD_TRIGGER_AUTOFOCUS [2; 2]
           ++ zone_reads [16; 0; 16; 0; 0])
          (with_bus [9]
             (initialised
                ([1] ++ 0 :: [2; 2] ++ 0 :: [16; 0; 16; 0; 0] ++ [9])))).
Proof.
  split; [|split].
  - apply (proj1 (autofocus_short_circuit
                    (initialised (repeat 1 100)) 0x3C eq_refl));
      [simpl; lia | reflexivity].
  - apply (proj1 (proj2 (autofocus_short_circuit
                           (initialised ([1] ++ 0 :: repeat 1 100)) 0x3C
                           eq_refl)) [1] (repeat 1 100));
      [reflexivity | simpl; lia | reflexivity | simpl; lia | reflexivity].
  - apply (proj2 (proj2 (autofocus_short_circuit
                           (initialised
                              ([1] ++ 0 :: [2; 2] ++ 0 :: [16; 0; 16; 0; 0] ++ [9]))
                           0x3C eq_refl))
             [1] [2; 2] [16; 0; 16; 0; 0] [9]);
      [reflexivity | simpl; lia | reflexivity | simpl; lia | reflexivity
      | reflexivity].
Defined.

Lemma send_autofocus_command_quiet st a command msg :
  _camera_device st = Some a ->
  is_byte command = true ->
  exists r s' es,
    _send_autofocus_command command msg st
    = (r, emit ([reg_write _OV5640_CMD_ACK 0x01;
                 reg_write _OV5640_CMD_MAIN command] ++ es)
               (with_bus s' st))
    /\ register_writes es = [].
Proof.
  intros Ha Hc. unfold _send_autofocus_command.
  rewrite write_camera_register_bind with (a := a) by easy.
  rewrite write_camera_register_bind with (a := a) by easy.
  destruct (poll_ack_quiet 100
              (emit [reg_write _OV5640_CMD_MAIN command]
                 (emit [reg_write _OV5640_CMD_ACK 0x01] st)) a Ha)
    as (r & s' & es & Hrun & Hw).
  exists r, s', es. split; [|exact Hw].
  eapply eq_trans; [exact Hrun|].
  now rewrite !with_bus_emit, !emit_emit.
Qed.

(** C6. The VCM-step setter raises [RuntimeError("VCM step must be 0 to
    255")] for every step outside [0,255] and leaves the state, the bus
    trace included, untouched.  For every step inside [0,255] the bus
    trace starts with the register writes (0x3027, 0), (0x3028, step),
    then the handshake's (0x3023, 1) and (0x3022, 0x1A), in that order,
    and no other register write follows. *)
Theorem autofocus_vcm_step_setter_checked st step :
  (~ 0 <= step <= 255 ->
   autofocus_vcm_step_setter step st
   = (Raise (RuntimeError "VCM step must be 0 to 255"), st))
  /\
  (0 <= step <= 255 ->
   forall a, _camera_device st = Some a ->
   exists r s' es,
     autofocus_vcm_step_setter step st
     = (r, emit ([reg_write _OV5640_CMD_PARA3 0x00;
                  reg_write _OV5640_CMD_PARA4 step;
                  reg_write _OV5640_CMD_ACK 0x01;
                  reg_write _OV5640_CMD_MAIN _OV5640_CMD_AF_SET_VCM_STEP]
                 ++ es)
                (with_bus s' st))
     /\ register_writes es = []).
Proof.
  split.
  - intros Hout. unfold autofocus_vcm_step_setter.
    destruct (Z.leb_spec 0 step), (Z.leb_spec step 255);
      simpl; try reflexivity; lia.
  - intros Hin a Ha. unfold autofocus_vcm_step_setter.
    assert (Hb : is_byte step = true).
    { unfold is_byte. apply andb_true_intro; split;
        [apply Z.leb_le | apply Z.ltb_lt]; lia. }
    destruct (Z.leb_spec 0 step), (Z.leb_spec step 255); try lia.
    cbn [andb negb].
    rewrite write_camera_register_bind with (a := a) by easy.
    rewrite write_camera_register_bind with (a := a) by easy.
    destruct (send_autofocus_command_quiet
                (emit [reg_write _OV5640_CMD_PARA4 step]
                   (emit [reg_write _OV5640_CMD_PARA3 0x00] st))
                a _OV5640_CMD_AF_SET_VCM_STEP "set vcm step" Ha eq_refl)
      as (r & s' & es & Hrun & Hw).
    destruct r as [b|e].
    + exists (Ok tt), s', es. split; [|exact Hw].
      rewrite (bind_ok _ _ _ _ _ Hrun). unfold ret.
      now rewrite !with_bus_emit, !emit_emit.
    + exists (Raise e), s', es. split; [|exact Hw].
      rewrite (bind_raise _ _ _ _ _ Hrun).
      now rewrite !with_bus_emit, !emit_emit.
Qed.

Lemma autofocus_vcm_step_setter_checked_witness :
  autofocus_vcm_step_setter 256 (initialised [0])
  = (Raise (RuntimeError "VCM step must be 0 to 255"), initialised [0])
  /\
  exists r s' es,
    autofocus_vcm_step_setter 128 (initialised [0])
    = (r, emit ([reg_write _OV5640_CMD_PARA3 0x00;
                 reg_write _OV5640_CMD_PARA4 128;
                 reg_write _OV5640_CMD_ACK 0x01;
                 reg_write _OV5640_CMD_MAIN _OV5640_CMD_AF_SET_VCM_STEP]
                ++ es)
               (with_bus s' (initialised [0])))
    /\ register_writes es = [].
Proof.
  split.
  - apply (proj1 (autofocus_vcm_step_setter_checked (initialised [0]) 256)).
    lia.
  - apply (proj2 (autofocus_vcm_step_setter_checked (initialised [0]) 128)
             ltac:(lia) 0x3C eq_refl).
Defined.

(** C10. For a step in [0,255], when the SetVcmStep handshake times out
    (the acknowledge register reads nonzero at all 100 polls) the
    handshake itself returns [False], yet the setter returns normally, as
    it does on success: the handshake's result is dropped.  The two
    parameter writes precede the handshake in the trace. *)
Theorem autofocus_vcm_step_setter_silent st a step :
  _camera_device st = Some a ->
  0 <= step <= 255 ->
  (100 <= List.length (bus st))%nat ->
  forallb nonzero (firstn 100 (bus st)) = true ->
  let params := [reg_write _OV5640_CMD_PARA3 0x00;
                 reg_write _OV5640_CMD_PARA4 step] in
  let st' := emit (params ++ given_up _OV5640_CMD_AF_SET_VCM_STEP
                                (firstn 100 (bus st)))
                  (with_bus (skipn 100 (bus st)) st) in
  _send_autofocus_command _OV5640_CMD_AF_SET_VCM_STEP "set vcm step"
    (emit params st) = (Ok false, st')
  /\ autofocus_vcm_step_setter step st = (Ok tt, st').
Proof.
  intros Ha Hin Hlen Hnz params st'.
  assert (Hb : is_byte step = true).
  { unfold is_byte. apply andb_true_intro; split;
      [apply Z.leb_le | apply Z.ltb_lt]; lia. }
  assert (Hrun : _send_autofocus_command _OV5640_CMD_AF_SET_VCM_STEP
                   "set vcm step" (emit params st) = (Ok false, st')).
  { rewrite send_autofocus_command_exhausted with (a := a) (s := bus st)
      by easy.
    unfold st'. now rewrite with_bus_emit, emit_emit. }
  split; [exact Hrun|].
  unfold autofocus_vcm_step_setter.
  destruct (Z.leb_spec 0 step), (Z.leb_spec step 255); try lia.
  cbn [andb negb].
  rewrite write_camera_register_bind with (a := a) by easy.
  rewrite write_camera_register_bind with (a := a) by easy.
  rewrite emit_emit. change ([reg_write _OV5640_CMD_PARA3 0x00]
                             ++ [reg_write _OV5640_CMD_PARA4 step])
    with params.
  now rewrite (bind_ok _ _ _ _ _ Hrun).
Qed.

Lemma autofocus_vcm_step_setter_silent_witness :
  let st := initialised (repeat 1 100) in
  let params := [reg_write _OV5640_CMD_PARA3 0x00;
                 reg_write _OV5640_CMD_PARA4 200] in
  let st' := emit (params ++ given_up _OV5640_CMD_AF_SET_VCM_STEP
                                (firstn 100 (bus st)))
                  (with_bus (skipn 100 (bus st)) st) in
  _send_autofocus_command _OV5640_CMD_AF_SET_VCM_STEP "set vcm step"
    (emit params st) = (Ok false, st')
  /\ autofocus_vcm_step_setter 200 st = (Ok tt, st').
Proof.
  apply (autofocus_vcm_step_setter_silent
           (initialised (repeat 1 100)) 0x3C 200);
    [reflexivity | lia | simpl; lia | reflexivity].
Defined.

Lemma address_bytes reg :
  0 <= reg < 0x10000 ->
  is_byte (Z.shiftr reg 8) = true
  /\ Z.shiftr reg 8 * 256 + Z.land reg 0xFF = reg.
Proof.
  intros H. rewrite Z.shiftr_div_pow2 by lia.
  change 0xFF with (Z.ones 8). rewrite Z.land_ones by lia.
  change (2 ^ 8) with 256. split.
  - unfold is_byte. apply andb_true_intro; split;
      [apply Z.leb_le | apply Z.ltb_lt].
    + apply Z.div_pos; lia.
    + apply Z.div_lt_upper_bound; lia.
  - pose proof (Z.div_mod reg 256 ltac:(lia)). lia.
Qed.

Lemma pairs_ind (P : list Z -> Prop) :
  P [] -> (forall x, P [x]) ->
  (forall x y l, P l -> P (x :: y :: l)) ->
  forall l, P l.
Proof.
  intros H0 H1 H2 l.
  enough (H : P l /\ forall x, P (x :: l)) by exact (proj1 H).
  induction l as [|y l [IH1 IH2]]; split; auto.
Qed.



Lemma bytearray_set_bind {B} (k : list Z -> M Scripted B) st b i v :
  is_byte v = true ->
  bind (bytearray_set b i v) k st = k (store i v b) st.
Proof. intros Hv. unfold bind, bytearray_set. now rewrite Hv. Qed.

Lemma bus_write_bind {B} (k : unit -> M Scripted B) st frame :
  bind (bus_write frame) k st = k tt (emit [I2CWrite frame] st).
Proof. unfold bind, bus_write; simpl. now rewrite with_bus_same. Qed.

Lemma upload_chunks_run firmware ks : forall st arr,
  List.length arr = 256%nat ->
  Forall (fun k => (254 * k < List.length firmware)%nat /\ (k <= 129)%nat) ks ->
  upload_chunks (map (fun k => 0 + 254 * Z.of_nat k) ks) firmware arr st
  = (Ok tt, emit (map (chunk_frame firmware) ks) st).
Proof.
  induction ks as [|k ks IH]; intros st arr Harr Hks.
  - simpl. unfold ret. now rewrite emit_nil.
  - inversion Hks as [|? ? [Hk Hmax] Hrest]; subst.
    cbn [map upload_chunks].
    replace (0 + 254 * Z.of_nat k) with (Z.of_nat (254 * k)) by lia.
    replace (Z.of_nat (254 * k) + 0x8000) with (chunk_address k)
      by (unfold chunk_address; lia).
    assert (Haddr : 0 <= chunk_address k < 0x10000)
      by (unfold chunk_address; lia).
    rewrite bytearray_set_bind by apply (address_bytes _ Haddr).
    rewrite bytearray_set_bind by apply land_255_byte.
    destruct (chunk_buffer arr firmware (254 * k)
                (Z.shiftr (chunk_address k) 8)
                (Z.land (chunk_address k) 0xFF) Harr Hk) as [Hlen Hframe].
    cbv zeta in Hlen, Hframe. rewrite Hframe.
    rewrite bus_write_bind.
    rewrite IH by assumption.
    now rewrite emit_emit.
Qed.

(** C3 (amended). For every firmware of [L <= 33020] bytes, the upload
    issues exactly [ceil(L / 254)] bus frames; frame [k] carries the two
    address bytes of [0x8000 + 254 k], high byte first, followed by the
    bytes [254 k .. 254 k + 253] of the firmware (fewer in the last
    frame); the payloads concatenated give back the firmware; and for
    [L > 0] the last payload has [L mod 254] bytes, or 254 when [L] is a
    multiple of 254. *)
Theorem upload_firmware_chunks st a firmware :
  _camera_device st = Some a ->
  len firmware <= 33020 ->
  let n := chunk_count firmware in
  upload_firmware firmware st
  = (Ok tt, emit (map (chunk_frame firmware) (seq 0 n)) st)
  /\ Z.of_nat (List.length (map (chunk_frame firmware) (seq 0 n)))
     = (len firmware + 253) / 254
  /\ List.concat (map (chunk firmware) (seq 0 n)) = firmware
  /\ (forall k, (k < n)%nat ->
        Z.shiftr (chunk_address k) 8 * 256 + Z.land (chunk_address k) 0xFF
        = 0x8000 + 254 * Z.of_nat k)
  /\ (0 < len firmware ->
      len (chunk firmware (n - 1))
      = if len firmware mod 254 =? 0 then 254 else len firmware mod 254).
Proof.
  intros Ha HL n.
  destruct (chunk_count_spec firmware) as [Hcover Hin]. fold n in Hcover, Hin.
  assert (Hn : Z.of_nat n = (len firmware + 253) / 254).
  { unfold n, chunk_count. apply Z2Nat.id, Z.div_pos; unfold len; lia. }
  assert (Hmax : (n <= 130)%nat).
  { assert ((len firmware + 253) / 254 < 131)
      by (apply Z.div_lt_upper_bound; lia).
    lia. }
  split; [|split; [|split; [|split]]].
  - unfold upload_firmware, bind at 1, enter_camera_device. rewrite Ha.
    rewrite range_254. fold n.
    apply upload_chunks_run; [reflexivity|].
    apply Forall_forall. intros k Hk. apply in_seq in Hk.
    split; [apply Hin; lia | lia].
  - now rewrite length_map, length_seq.
  - now apply chunks_concat.
  - intros k Hk. apply address_bytes. unfold chunk_address. lia.
  - intros Hpos. unfold len at 1. rewrite chunk_length.
    unfold len in *.
    set (L := List.length firmware) in *.
    pose proof (Z.div_mod (Z.of_nat L) 254 ltac:(lia)) as Hdm.
    pose proof (Z.mod_pos_bound (Z.of_nat L) 254 ltac:(lia)) as Hm.
    pose proof (Z.div_mod (Z.of_nat L + 253) 254 ltac:(lia)) as Hdm'.
    pose proof (Z.mod_pos_bound (Z.of_nat L + 253) 254 ltac:(lia)) as Hm'.
    destruct (Z.eqb_spec (Z.of_nat L mod 254) 0); lia.
Qed.

Lemma upload_firmware_chunks_witness :
  let firmware := repeat 0xA5 600 in
  let n := chunk_count firmware in
  upload_firmware firmware (initialised [])
  = (Ok tt, emit (map (chunk_frame firmware) (seq 0 n)) (initialised []))
  /\ Z.of_nat (List.length (map (chunk_frame firmware) (seq 0 n)))
     = (len firmware + 253) / 254
  /\ List.concat (map (chunk firmware) (seq 0 n)) = firmware
  /\ (forall k, (k < n)%nat ->
        Z.shiftr (chunk_address k) 8 * 256 + Z.land (chunk_address k) 0xFF
        = 0x8000 + 254 * Z.of_nat k)
  /\ (0 < len firmware ->
      len (chunk firmware (n - 1))
      = if len firmware mod 254 =? 0 then 254 else len firmware mod 254).
Proof.
  apply (upload_firmware_chunks (initialised []) 0x3C (repeat 0xA5 600)).
  - reflexivity.
  - apply Z.leb_le. reflexivity.
Defined.

(** Scenario A: 600 bytes go out as three frames of 254, 254 and 92
    payload bytes, addressed at 0x8000, 0x80FE and 0x81FC. *)
Example upload_600_bytes :
  let firmware := repeat 0xA5 600 in
  let run := upload_firmware firmware (initialised []) in
  fst run = Ok tt
  /\ trace (snd run)
     = [I2CWrite (0x80 :: 0x00 :: repeat 0xA5 254);
        I2CWrite (0x80 :: 0xFE :: repeat 0xA5 254);
        I2CWrite (0x81 :: 0xFC :: repeat 0xA5 92)].
Proof. vm_compute. split; reflexivity. Qed.

(** A firmware of 33021 bytes needs 131 frames, and frame 130 would be
    addressed at 0x100FC: its high address byte does not fit the buffer,
    the store raises [ValueError] and only 130 frames go out. *)
Lemma upload_33021_bytes :
  let firmware := repeat 0xA5 (Z.to_nat 33021) in
  let run := upload_firmware firmware (initialised []) in
  fst run = Raise ValueError
  /\ List.length (trace (snd run)) = 130%nat
  /\ chunk_count firmware = 131%nat
  /\ fst run <> Ok tt.
Proof. vm_compute. repeat split. discriminate. Qed.

End ScriptedRuns.

(** ** The driver against a register file *)

Section RegFileRuns.

Implicit Types st : St RegFile.

Lemma bind_assoc {D A B C} (m : M D A) (f : A -> M D B) (g : B -> M D C)
  (st : St D) :
  bind (bind m f) g st = bind m (fun x => bind (f x) g) st.
Proof. unfold bind. destruct (m st) as [[x|e] st1]; reflexivity. Qed.

Lemma ret_bind {D A B} (a : A) (k : A -> M D B) (st : St D) :
  bind (ret a) k st = k a st.
Proof. reflexivity. Qed.

Lemma get_camera_bind {D B} (k : Camera -> M D B) (st : St D) attr c :
  camera st = Some c -> bind (get_camera attr) k st = k c st.
Proof. intros Hc. unfold bind, get_camera. now rewrite Hc. Qed.

Lemma write_register_file {B} (k : unit -> M RegFile B) st a f p reg v :
  _camera_device st = Some a ->
  bus st = mkRegFile f p ->
  0 <= reg < 0x10000 ->
  is_byte v = true ->
  bind (write_camera_register reg v) k st
  = k tt (emit [reg_write reg v]
            (with_bus (mkRegFile (fun x => if x =? reg then v else f x)
                                 (reg + 1)) st)).
Proof.
  intros Ha Hbus Hreg Hv. destruct (address_bytes reg Hreg) as [Hb Haddr].
  unfold write_camera_register, bind, bytearray_set.
  rewrite Hb, land_255_byte, Hv. unfold ret, enter_camera_device.
  rewrite Ha. unfold bus_write. cbn [bytearray repeat store].
  rewrite Hbus.
  cbn [i2c_write RegFile_device burst len List.length Z.of_nat
         Pos.of_succ_nat regs].
  now rewrite Haddr.
Qed.

Lemma read_register_file {B} (k : Z -> M RegFile B) st a f p reg :
  _camera_device st = Some a ->
  bus st = mkRegFile f p ->
  0 <= reg < 0x10000 ->
  bind (read_camera_register reg) k st
  = k (f reg)
      (emit (reg_read reg (f reg)) (with_bus (mkRegFile f (reg + 1)) st)).
Proof.
  intros Ha Hbus Hreg. destruct (address_bytes reg Hreg) as [Hb Haddr].
  unfold read_camera_register, bind, bytearray_set.
  rewrite Hb, land_255_byte. unfold ret, enter_camera_device.
  rewrite Ha. unfold bus_write, bus_readinto. cbn [bytearray repeat store].
  rewrite Hbus.
  cbn [i2c_write i2c_readinto RegFile_device burst len List.length Z.of_nat
         regs].
  rewrite Haddr, Z.add_0_r.
  cbn [bus emit with_bus regs pointer nth].
  unfold emit, with_bus, reg_read.
  cbn [bus regs pointer _camera_device camera _resolution attached
         firmware_file frames trace].
  now rewrite <- app_assoc.
Qed.

Lemma exposure_bits e :
  0 <= e < 2 ^ 20 ->
  Z.shiftl (Z.land (Z.shiftr e 12) 0xFF) 12
  + Z.shiftl (Z.land (Z.shiftr e 4) 0xFF) 4
  + Z.shiftr (Z.land (Z.shiftl e 4) 0xFF) 4
  = e.
Proof.
  intros He. change 0xFF with (Z.ones 8).
  rewrite !Z.land_ones, !Z.shiftr_div_pow2, !Z.shiftl_mul_pow2 by lia.
  change (2 ^ 20) with 1048576 in He.
  change (2 ^ 12) with 4096. change (2 ^ 8) with 256. change (2 ^ 4) with 16.
  pose proof (Z.div_mod e 4096 ltac:(lia)).
  pose proof (Z.mod_pos_bound e 4096 ltac:(lia)).
  pose proof (Z.div_mod (e / 4096) 256 ltac:(lia)).
  pose proof (Z.mod_pos_bound (e / 4096) 256 ltac:(lia)).
  pose proof (Z.div_mod e 16 ltac:(lia)).
  pose proof (Z.mod_pos_bound e 16 ltac:(lia)).
  pose proof (Z.div_mod (e / 16) 256 ltac:(lia)).
  pose proof (Z.mod_pos_bound (e / 16) 256 ltac:(lia)).
  pose proof (Z.div_mod (e * 16) 256 ltac:(lia)).
  pose proof (Z.mod_pos_bound (e * 16) 256 ltac:(lia)).
  pose proof (Z.div_mod ((e * 16) mod 256) 16 ltac:(lia)).
  pose proof (Z.mod_pos_bound ((e * 16) mod 256) 16 ltac:(lia)).
  assert (0 <= e / 4096 < 256)
    by (split; [apply Z.div_pos | apply Z.div_lt_upper_bound]; lia).
  lia.
Qed.

Ltac on_register_file a :=
  first
    [ erewrite write_register_file with (a := a);
      [ | first [ reflexivity | lia | apply land_255_byte ] .. ]
    | erewrite read_register_file with (a := a);
      [ | first [ reflexivity | lia ] .. ] ].

(** C8. On a register file, where a read returns the value last written,
    setting the exposure to any [e] in [0, 2^20) and reading the settings
    back gives an exposure equal to [e]. *)
Theorem exposure_round_trip st a c e :
  _camera_device st = Some a ->
  camera st = Some c ->
  0 <= e < 2 ^ 20 ->
  exists settings st',
    bind (set_camera_exposure (Some e)) (fun _ => get_camera_autosettings) st
    = (Ok settings, st')
    /\ exposure settings = e.
Proof.
  intros Ha Hc He.
  destruct st as [dv cam res [f p] att fw fr tr].
  cbn [_camera_device camera] in Ha, Hc. subst dv cam.
  do 2 eexists. split.
  - unfold set_camera_exposure, get_camera_autosettings.
    rewrite !bind_assoc.
    rewrite get_camera_bind with (c := c) by reflexivity.
    rewrite bind_assoc. unfold bind at 1, put_camera.
    do 3 (rewrite ?bind_assoc; on_register_file a).
    do 3 on_register_file a.
    cbn [read_registers].
    do 6 (rewrite ?bind_assoc; on_register_file a).
    rewrite ?bind_assoc, !ret_bind.
    on_register_file a.
    reflexivity.
  - cbn [exposure]. cbn [Z.eqb Pos.eqb].
    now apply exposure_bits.
Qed.

End RegFileRuns.

Lemma exposure_round_trip_witness :
  exists settings st',
    bind (set_camera_exposure (Some 0x12345)) (fun _ => get_camera_autosettings)
      (initialised (mkRegFile (fun _ => 0) 0))
    = (Ok settings, st')
    /\ exposure settings = 0x12345.
Proof.
  apply (exposure_round_trip (initialised (mkRegFile (fun _ => 0) 0))
           0x3C ov5640 0x12345);
    [reflexivity | reflexivity | lia].
Defined.

(** ** Further operations of the driver *)

Section Settings.

Context {D : Type} {device : I2CDevice D}.

(** [for i, reg_val in enumerate(wb_register_values):
       self.write_camera_register(0x3400 + i, reg_val)], from index [i]. *)
Fixpoint write_wb_registers (i : Z) (wb_register_values : list Z) : M D unit :=
  match wb_register_values with
  | [] => ret tt
  | reg_val :: rest =>
      write_camera_register (0x3400 + i) reg_val ;;;
      write_wb_registers (i + 1) rest
  end.

Definition set_camera_wb (wb_register_values : option (list Z)) : M D unit :=
  match wb_register_values with
  | None =>
      c <- get_camera "whitebal" ;;
      put_camera (mkCamera (sensor_name c) (address c) (pixel_format c)
                    (frame_size c) (hmirror c) (vflip c) true
                    (exposure_ctrl c) (gain_ctrl c))
  | Some wb_register_values =>
      if negb (len wb_register_values =? 6)
      then raise (RuntimeError "Please pass in 0x3400~0x3405 inclusive!")
      else
        write_camera_register 0x3212 0x03 ;;;
        write_camera_register 0x3406 0x01 ;;;
        write_wb_registers 0 wb_register_values ;;;
        write_camera_register 0x3212 0x13 ;;;
        write_camera_register 0x3212 0xA3
  end.

Definition set_camera_gain (new_gain : option Z) : M D unit :=
  match new_gain with
  | None =>
      c <- get_camera "gain_ctrl" ;;
      put_camera (mkCamera (sensor_name c) (address c) (pixel_format c)
                    (frame_size c) (hmirror c) (vflip c) (whitebal c)
                    (exposure_ctrl c) true)
  | Some new_gain =>
      c <- get_camera "gain_ctrl" ;;
      put_camera (mkCamera (sensor_name c) (address c) (pixel_format c)
                    (frame_size c) (hmirror c) (vflip c) (whitebal c)
                    (exposure_ctrl c) false) ;;;
      write_camera_register 0x350B new_gain
  end.

End Settings.

(** The events of one firmware-status poll that did not read idle, as
    [polls] for the acknowledge register. *)
Definition status_polls (answers : list Z) : list event :=
  flat_map (fun s => reg_read _OV5640_CMD_FW_STATUS s ++ [Sleep 10]) answers.

Definition not_idle (s : Z) : bool := negb (s =? _OV5640_STAT_IDLE).

(** The motion loop of [pir_af.py]: one turn per reading of the PIR pin.
    A turn that finds the pin high while [pir_last_status] is low sets
    [pir_last_status] and calls [capture_send_image] (then sleeps 10 s);
    any other turn clears [pir_last_status].  The result tells, turn by
    turn, whether [capture_send_image] was called, taking each call to
    return. *)
Fixpoint pir_loop (readings : list bool) (pir_last_status : bool) : list bool :=
  match readings with
  | [] => []
  | pir_status :: rest =>
      if pir_status && negb (Bool.eqb pir_status pir_last_status)
      then true :: pir_loop rest true
      else false :: pir_loop rest false
  end.

(** ** Register programs: odd length, concatenation, range checks *)

Section RegisterBus.

Context {D : Type} {device : I2CDevice D}.
Implicit Types st : St D.

Lemma bind_ext {A B} (m : M D A) (k1 k2 : A -> M D B) st :
  (forall a st', k1 a st' = k2 a st') -> bind m k1 st = bind m k2 st.
Proof.
  intros H. unfold bind. destruct (m st) as [[a|e] st1]; [apply H | reflexivity].
Qed.

(** X2. Writing the concatenation of two register programs, the first of
    even length, is writing the first and then the second; so when the
    first raises, the error is the result and nothing of the second is
    attempted. *)
Theorem write_camera_list_app st p1 p2 :
  Nat.even (List.length p1) = true ->
  write_camera_list (p1 ++ p2) st
  = bind (write_camera_list p1) (fun _ => write_camera_list p2) st
  /\ (forall e st',
         write_camera_list p1 st = (Raise e, st') ->
         write_camera_list (p1 ++ p2) st = (Raise e, st')).
Proof.
  intros Heven.
  assert (Heq : write_camera_list (p1 ++ p2) st
                = bind (write_camera_list p1) (fun _ => write_camera_list p2) st).
  { revert st Heven.
    induction p1 as [| x | x y l IH] using pairs_ind; intros st Heven.
    - reflexivity.
    - discriminate.
    - cbn [app write_camera_list]. rewrite bind_assoc.
      apply bind_ext. intros _ st1. apply IH. exact Heven. }
  split; [exact Heq|].
  intros e st' Hfail. rewrite Heq. now apply bind_raise.
Qed.

(** X3. A register address outside 16 bits or a value outside a byte makes
    [write_camera_register] raise [ValueError] while it fills its buffer:
    nothing is sent and the state is untouched.  [read_camera_register]
    rejects such an address in the same way. *)
Theorem camera_register_range_checked st reg value :
  ~ 0 <= reg < 0x10000 \/ ~ 0 <= value <= 255 ->
  write_camera_register reg value st = (Raise ValueError, st)
  /\ (~ 0 <= reg < 0x10000 ->
      read_camera_register reg st = (Raise ValueError, st)).
Proof.
  intros Hbad.
  assert (Hreg : ~ 0 <= reg < 0x10000 -> is_byte (Z.shiftr reg 8) = false).
  { intros Hr. unfold is_byte. rewrite Z.shiftr_div_pow2 by lia.
    change (2 ^ 8) with 256.
    destruct (Z.leb_spec 0 (reg / 256)) as [H0|H0];
      destruct (Z.ltb_spec (reg / 256) 256) as [H1|H1]; try reflexivity.
    exfalso. apply Hr.
    pose proof (Z.div_mod reg 256 ltac:(lia)).
    pose proof (Z.mod_pos_bound reg 256 ltac:(lia)). lia. }
  split.
  - unfold write_camera_register, bind, bytearray_set.
    destruct (is_byte (Z.shiftr reg 8)) eqn:Hb.
    + destruct Hbad as [Hr|Hv]; [pose proof (Hreg Hr); congruence|].
      rewrite land_255_byte. unfold ret.
      assert (Hval : is_byte value = false).
      { unfold is_byte.
        destruct (Z.leb_spec 0 value), (Z.ltb_spec value 256);
          try reflexivity; lia. }
      now rewrite Hval.
    + reflexivity.
  - intros Hr. unfold read_camera_register, bind, bytearray_set.
    now rewrite (Hreg Hr).
Qed.

End RegisterBus.

Lemma write_camera_list_app_witness :
  write_camera_list ([0x3008; 0x82] ++ [0xFFFF; 10]) (initialised ([] : Scripted))
  = bind (write_camera_list [0x3008; 0x82])
      (fun _ => write_camera_list [0xFFFF; 10]) (initialised ([] : Scripted))
  /\ write_camera_list ([0x3008; 256] ++ [0xFFFF; 10]) (initialised ([] : Scripted))
     = (Raise ValueError, initialised ([] : Scripted)).
Proof.
  split.
  - exact (proj1 (write_camera_list_app (initialised ([] : Scripted))
                    [0x3008; 0x82] [0xFFFF; 10] eq_refl)).
  - apply (proj2 (write_camera_list_app (initialised ([] : Scripted))
                    [0x3008; 256] [0xFFFF; 10] eq_refl)).
    reflexivity.
Defined.

Lemma camera_register_range_checked_witness :
  write_camera_register 0x3024 256 (initialised ([] : Scripted))
  = (Raise ValueError, initialised ([] : Scripted))
  /\ read_camera_register 0x10000 (initialised ([] : Scripted))
     = (Raise ValueError, initialised ([] : Scripted)).
Proof.
  split.
  - apply (camera_register_range_checked
             (initialised ([] : Scripted)) 0x3024 256).
    right; lia.
  - apply (camera_register_range_checked
             (initialised ([] : Scripted)) 0x10000 0);
      [left; lia | lia].
Defined.

(** ** Further runs against a scripted device *)

Section MoreScriptedRuns.

Implicit Types st : St Scripted.

Lemma write_camera_list_run reg_list : forall st a,
  _camera_device st = Some a ->
  forallb entry_ok (pairs reg_list) = true ->
  write_camera_list reg_list st
  = (if Nat.even (List.length reg_list) then Ok tt else Raise IndexError,
     emit (map entry_effect (pairs reg_list)) st).
Proof.
  induction reg_list as [| x | register value rest IH] using pairs_ind;
    intros st a Ha Hwf.
  - simpl. unfold ret. now rewrite emit_nil.
  - simpl. unfold raise. now rewrite emit_nil.
  - cbn [pairs forallb] in Hwf. apply andb_prop in Hwf as [Hentry Hrest].
    cbn [write_camera_list pairs map List.length Nat.even].
    unfold entry_ok, entry_effect, is_delay in *. cbn [fst snd] in *.
    destruct (register =? _REG_DLY).
    + apply andb_prop in Hentry as [Hlo Hhi].
      apply Z.leb_le in Hlo. apply Z.leb_le in Hhi.
      rewrite sleep_bind by (split; assumption).
      rewrite IH with (a := a) by easy. now rewrite emit_emit.
    + apply andb_prop in Hentry as [Hreg Hval].
      apply andb_prop in Hreg as [Hlo Hhi].
      apply Z.leb_le in Hlo. apply Z.ltb_lt in Hhi.
      destruct (address_bytes register (conj Hlo Hhi)) as [Hb _].
      rewrite write_camera_register_bind with (a := a) by easy.
      rewrite IH with (a := a) by easy. now rewrite emit_emit.
Qed.



Lemma upload_firmware_run st a firmware :
  _camera_device st = Some a ->
  len firmware <= 33020 ->
  upload_firmware firmware st
  = (Ok tt, emit (map (chunk_frame firmware) (seq 0 (chunk_count firmware))) st).
Proof.
  intros Ha HL.
  destruct (chunk_count_spec firmware) as [_ Hin].
  assert (Hmax : (chunk_count firmware <= 130)%nat).
  { unfold chunk_count.
    assert ((len firmware + 253) / 254 < 131)
      by (apply Z.div_lt_upper_bound; lia).
    lia. }
  unfold upload_firmware, bind at 1, enter_camera_device. rewrite Ha.
  rewrite range_254.
  apply upload_chunks_run; [reflexivity|].
  apply Forall_forall. intros k Hk. apply in_seq in Hk.
  split; [apply Hin; lia | lia].
Qed.

Lemma wait_idle_reached n : forall st a nz rest,
  _camera_device st = Some a ->
  bus st = nz ++ _OV5640_STAT_IDLE :: rest ->
  (List.length nz < n)%nat ->
  forallb not_idle nz = true ->
  wait_idle n st
  = (Ok tt,
     emit (status_polls nz ++ reg_read _OV5640_CMD_FW_STATUS _OV5640_STAT_IDLE)
          (with_bus rest st)).
Proof.
  induction n as [|n IH]; intros st a nz rest Ha Hs Hlen Hnz; [lia|].
  cbn [wait_idle]. unfold autofocus_status. destruct nz as [|v nz].
  - rewrite read_camera_register_bind
      with (a := a) (v := _OV5640_STAT_IDLE) (s := rest) by easy.
    reflexivity.
  - simpl in Hnz. apply andb_prop in Hnz as [Hv Hrest].
    rewrite read_camera_register_bind with (a := a) (v := v) (s := nz ++ _OV5640_STAT_IDLE :: rest)
      by easy.
    unfold not_idle in Hv. destruct (v =? _OV5640_STAT_IDLE); [discriminate|].
    rewrite sleep_bind by (unfold sleep_limit; lia).
    rewrite (IH _ a nz rest); try easy.
    + rewrite emit_emit, with_bus_emit, with_bus_with_bus, emit_emit.
      cbn [status_polls flat_map]. now rewrite <- !app_assoc.
    + simpl in Hlen; lia.
Qed.

Lemma wait_idle_exhausted n : forall st a s,
  _camera_device st = Some a ->
  bus st = s ->
  (n <= List.length s)%nat ->
  forallb not_idle (firstn n s) = true ->
  wait_idle n st
  = (Raise (RuntimeError "Timed out after trying to load autofocus firmware"),
     emit (status_polls (firstn n s)) (with_bus (skipn n s) st)).
Proof.
  induction n as [|n IH]; intros st a s Ha Hs Hlen Hnz.
  - simpl. unfold raise. subst s. now rewrite with_bus_same, emit_nil.
  - destruct s as [|v s]; [simpl in Hlen; lia|].
    simpl in Hnz. apply andb_prop in Hnz as [Hv Hrest].
    cbn [wait_idle]. unfold autofocus_status.
    rewrite read_camera_register_bind with (a := a) (v := v) (s := s) by easy.
    unfold not_idle in Hv. destruct (v =? _OV5640_STAT_IDLE); [discriminate|].
    rewrite sleep_bind by (unfold sleep_limit; lia).
    rewrite (IH _ a s); try easy.
    + rewrite emit_emit, with_bus_emit, with_bus_with_bus, emit_emit.
      cbn [status_polls flat_map firstn skipn]. now rewrite <- !app_assoc.
    + simpl in Hlen; lia.
Qed.

Lemma slept_status_polls l : slept (status_polls l) = 10 * len l.
Proof.
  unfold len. induction l as [|v l IH]; [reflexivity|].
  change (slept (status_polls (v :: l))) with (10 + slept (status_polls l)).
  rewrite IH. cbn [List.length]. lia.
Qed.

(** The part of the firmware load that does not depend on the status
    register: coprocessor reset, 10 ms, the chunks, the finalization list. *)
Definition load_prefix (firmware : list Z) : list event :=
  [reg_write 0x3000 0x20; Sleep 10]
  ++ map (chunk_frame firmware) (seq 0 (chunk_count firmware))
  ++ map entry_effect (pairs _finalize_firmware_load).

Lemma autofocus_init_from_bitstream_prefix st a c firmware :
  _camera_device st = Some a ->
  camera st = Some c ->
  sensor_name c = "OV5640"%string ->
  len firmware <= 33020 ->
  autofocus_init_from_bitstream firmware st
  = wait_idle 100 (emit (load_prefix firmware) st).
Proof.
  intros Ha Hc Hname HL. unfold autofocus_init_from_bitstream.
  rewrite get_camera_bind with (c := c) by exact Hc.
  rewrite Hname. cbn [String.eqb Ascii.eqb Bool.eqb negb].
  rewrite write_camera_register_bind with (a := a) by easy.
  rewrite sleep_bind by (unfold sleep_limit; lia).
  rewrite (bind_ok _ _ _ _ _
             (upload_firmware_run
                (emit [Sleep 10] (emit [reg_write 0x3000 0x20] st))
                a firmware Ha HL)).
  rewrite (bind_ok _ _ _ _ _
             (write_camera_list_run _finalize_firmware_load
                (emit (map (chunk_frame firmware) (seq 0 (chunk_count firmware)))
                   (emit [Sleep 10] (emit [reg_write 0x3000 0x20] st)))
                a Ha eq_refl)).
  cbn [Nat.even List.length _finalize_firmware_load].
  rewrite !emit_emit. reflexivity.
Qed.

(** X6. On an OV5640, loading a firmware of at most 33020 bytes writes
    0x20 to register 0x3000, sleeps 10 ms, sends the chunks, applies the
    nine writes of the finalization list (which leave 0x7F in the status
    register 0x3029), and then polls the status register every 10 ms; it
    returns as soon as a poll reads 0x70, provided one of the first 100
    polls does. *)
Theorem autofocus_init_from_bitstream_loads st a c firmware nz rest :
  _camera_device st = Some a ->
  camera st = Some c ->
  sensor_name c = "OV5640"%string ->
  len firmware <= 33020 ->
  bus st = nz ++ _OV5640_STAT_IDLE :: rest ->
  (List.length nz < 100)%nat ->
  forallb not_idle nz = true ->
  autofocus_init_from_bitstream firmware st
  = (Ok tt,
     emit (load_prefix firmware ++ status_polls nz
           ++ reg_read _OV5640_CMD_FW_STATUS _OV5640_STAT_IDLE)
          (with_bus rest st))
  /\ register_writes (map entry_effect (pairs _finalize_firmware_load))
     = [(0x3022, 0); (0x3023, 0); (0x3024, 0); (0x3025, 0); (0x3026, 0);
        (0x3027, 0); (0x3028, 0); (0x3029, 0x7F); (0x3000, 0)].
Proof.
  intros Ha Hc Hname HL Hs Hlen Hnz. split; [|reflexivity].
  rewrite autofocus_init_from_bitstream_prefix with (a := a) (c := c) by easy.
  rewrite wait_idle_reached with (a := a) (nz := nz) (rest := rest) by easy.
  now rewrite with_bus_emit, emit_emit.
Qed.

Lemma autofocus_init_from_bitstream_loads_witness :
  autofocus_init_from_bitstream (repeat 0xA5 600)
    (initialised ([0x7F; 0x7E] ++ _OV5640_STAT_IDLE :: [9]))
  = (Ok tt,
     emit (load_prefix (repeat 0xA5 600) ++ status_polls [0x7F; 0x7E]
           ++ reg_read _OV5640_CMD_FW_STATUS _OV5640_STAT_IDLE)
          (with_bus [9]
             (initialised ([0x7F; 0x7E] ++ _OV5640_STAT_IDLE :: [9])))).
Proof.
  apply (proj1 (autofocus_init_from_bitstream_loads
                  (initialised ([0x7F; 0x7E] ++ _OV5640_STAT_IDLE :: [9]))
                  0x3C ov5640 (repeat 0xA5 600) [0x7F; 0x7E] [9]
                  eq_refl eq_refl eq_refl
                  ltac:(apply Z.leb_le; reflexivity)
                  eq_refl ltac:(simpl; lia) eq_refl)).
Defined.

(** X7. If the status register does not read 0x70 at any of the 100 polls
    that follow the upload, the load raises [RuntimeError("Timed out after
    trying to load autofocus firmware")]; by then the whole firmware and
    the finalization list have been written, and the polls have slept
    1000 ms. *)
Theorem autofocus_init_from_bitstream_times_out st a c firmware :
  _camera_device st = Some a ->
  camera st = Some c ->
  sensor_name c = "OV5640"%string ->
  len firmware <= 33020 ->
  (100 <= List.length (bus st))%nat ->
  forallb not_idle (firstn 100 (bus st)) = true ->
  autofocus_init_from_bitstream firmware st
  = (Raise (RuntimeError "Timed out after trying to load autofocus firmware"),
     emit (load_prefix firmware ++ status_polls (firstn 100 (bus st)))
          (with_bus (skipn 100 (bus st)) st))
  /\ slept (status_polls (firstn 100 (bus st))) = 1000.
Proof.
  intros Ha Hc Hname HL Hlen Hnz. split.
  - rewrite autofocus_init_from_bitstream_prefix with (a := a) (c := c) by easy.
    rewrite wait_idle_exhausted with (a := a) (s := bus st) by easy.
    now rewrite with_bus_emit, emit_emit.
  - rewrite slept_status_polls. unfold len.
    rewrite length_firstn, Nat.min_l by lia. reflexivity.
Qed.

Lemma autofocus_init_from_bitstream_times_out_witness :
  let st := initialised (repeat 0x7F 100) in
  autofocus_init_from_bitstream (repeat 0xA5 600) st
  = (Raise (RuntimeError "Timed out after trying to load autofocus firmware"),
     emit (load_prefix (repeat 0xA5 600) ++ status_polls (firstn 100 (bus st)))
          (with_bus (skipn 100 (bus st)) st))
  /\ slept (status_polls (firstn 100 (bus st))) = 1000.
Proof.
  apply (autofocus_init_from_bitstream_times_out
           (initialised (repeat 0x7F 100)) 0x3C ov5640 (repeat 0xA5 600)
           eq_refl eq_refl eq_refl
           ltac:(apply Z.leb_le; reflexivity)
           ltac:(simpl; lia) eq_refl).
Defined.

Lemma poll_ack_bounded n : forall st a,
  _camera_device st = Some a ->
  exists r s' es,
    poll_ack n st = (r, emit es (with_bus s' st))
    /\ (reads es <= n)%nat
    /\ slept es <= 10 * Z.of_nat n
    /\ (r = Ok true \/ r = Ok false \/ r = Raise OSError).
Proof.
  induction n as [|n IH]; intros st a Ha.
  - exists (Ok false), (bus st), []. simpl. unfold ret.
    rewrite with_bus_same, emit_nil. repeat split; auto; lia.
  - cbn [poll_ack]. destruct (bus st) as [|v s] eqn:Hs.
    + exists (Raise OSError), (bus st),
        [I2CWrite [Z.shiftr _OV5640_CMD_ACK 8; Z.land _OV5640_CMD_ACK 0xFF]].
      rewrite with_bus_same. split; [|repeat split; auto; cbn [reads filter is_read List.length slept]; lia].
      apply bind_raise. now apply read_camera_register_silent with a.
    + rewrite read_camera_register_bind with (a := a) (v := v) (s := s) by easy.
      destruct (v =? 0x0).
      * exists (Ok true), s, (reg_read _OV5640_CMD_ACK v).
        repeat split; auto;
          cbn [reads filter is_read List.length slept reg_read]; lia.
      * rewrite sleep_bind by (unfold sleep_limit; lia).
        destruct (IH (emit [Sleep 10]
                        (emit (reg_read _OV5640_CMD_ACK v) (with_bus s st))) a Ha)
          as (r & s' & es & Hrun & Hreads & Hslept & Hres).
        exists r, s', (reg_read _OV5640_CMD_ACK v ++ [Sleep 10] ++ es).
        split; [|split; [|split; [|exact Hres]]].
        -- eapply eq_trans; [exact Hrun|].
           now rewrite !with_bus_emit, with_bus_with_bus, !emit_emit.
        -- rewrite !reads_app.
           change (reads (reg_read _OV5640_CMD_ACK v)) with 1%nat.
           change (reads [Sleep 10]) with 0%nat. lia.
        -- rewrite !slept_app.
           change (slept (reg_read _OV5640_CMD_ACK v)) with 0.
           change (slept [Sleep 10]) with 10. lia.
Qed.

(** X12. Whatever the device answers, a command handshake reads the
    acknowledge register at most 100 times and sleeps at most 1000 ms in
    all; it ends with [True], [False], or the [OSError] of a transfer the
    device did not answer, and never with another exception. *)
Theorem send_autofocus_command_bounded st a command msg :
  _camera_device st = Some a ->
  is_byte command = true ->
  exists r s' es,
    _send_autofocus_command command msg st = (r, emit es (with_bus s' st))
    /\ (reads es <= 100)%nat
    /\ slept es <= 1000
    /\ (r = Ok true \/ r = Ok false \/ r = Raise OSError).
Proof.
  intros Ha Hc. unfold _send_autofocus_command.
  rewrite write_camera_register_bind with (a := a) by easy.
  rewrite write_camera_register_bind with (a := a) by easy.
  destruct (poll_ack_bounded 100
              (emit [reg_write _OV5640_CMD_MAIN command]
                 (emit [reg_write _OV5640_CMD_ACK 0x01] st)) a Ha)
    as (r & s' & es & Hrun & Hreads & Hslept & Hres).
  exists r, s',
    ([reg_write _OV5640_CMD_ACK 0x01; reg_write _OV5640_CMD_MAIN command] ++ es).
  split; [|split; [|split; [|exact Hres]]].
  - eapply eq_trans; [exact Hrun|].
    now rewrite !with_bus_emit, !emit_emit.
  - rewrite reads_app. cbn [reads filter is_read reg_write List.length]. lia.
  - rewrite slept_app. cbn [slept reg_write]. lia.
Qed.

Lemma send_autofocus_command_bounded_witness :
  exists r s' es,
    _send_autofocus_command _OV5640_CMD_AUTO_AUTOFOCUS "continuous"
      (initialised [3; 3])
    = (r, emit es (with_bus s' (initialised [3; 3])))
    /\ (reads es <= 100)%nat
    /\ slept es <= 1000
    /\ (r = Ok true \/ r = Ok false \/ r = Raise OSError).
Proof.
  exact (send_autofocus_command_bounded (initialised [3; 3]) 0x3C
           _OV5640_CMD_AUTO_AUTOFOCUS "continuous" eq_refl eq_refl).
Defined.

(** X9. Reading the VCM step runs the GetVcmStep handshake.  If it is not
    acknowledged within 100 polls the result is [None] and the step
    register is not read; if it is acknowledged the result is the byte then
    read from parameter register 0x3028. *)
Theorem autofocus_vcm_step_read st a :
  _camera_device st = Some a ->
  ((100 <= List.length (bus st))%nat ->
   forallb nonzero (firstn 100 (bus st)) = true ->
   autofocus_vcm_step st
   = (Ok None,
      emit (given_up _OV5640_CMD_AF_GET_VCM_STEP (firstn 100 (bus st)))
           (with_bus (skipn 100 (bus st)) st)))
  /\
  (forall nz v rest,
      bus st = nz ++ 0 :: v :: rest ->
      (List.length nz < 100)%nat ->
      forallb nonzero nz = true ->
      autofocus_vcm_step st
      = (Ok (Some v),
         emit (acknowledged _OV5640_CMD_AF_GET_VCM_STEP nz
               ++ reg_read _OV5640_CMD_PARA4 v)
              (with_bus rest st))).
Proof.
  intros Ha. split.
  - intros Hlen Hnz. unfold autofocus_vcm_step.
    rewrite (bind_ok _ _ _ _ _
               (send_autofocus_command_exhausted st a _OV5640_CMD_AF_GET_VCM_STEP
                  "get vcm step" (bus st) Ha eq_refl eq_refl Hlen Hnz)).
    reflexivity.
  - intros nz v rest Hs Hlen Hnz. unfold autofocus_vcm_step.
    rewrite (bind_ok _ _ _ _ _
               (send_autofocus_command_acknowledged st a _OV5640_CMD_AF_GET_VCM_STEP
                  "get vcm step" nz (v :: rest) Ha eq_refl Hs Hlen Hnz)).
    cbn [negb].
    rewrite read_camera_register_bind with (a := a) (v := v) (s := rest) by easy.
    unfold ret.
    now rewrite with_bus_emit, with_bus_with_bus, emit_emit.
Qed.

Lemma autofocus_vcm_step_read_witness :
  autofocus_vcm_step (initialised (repeat 1 100))
  = (Ok None,
     emit (given_up _OV5640_CMD_AF_GET_VCM_STEP
             (firstn 100 (bus (initialised (repeat 1 100)))))
          (with_bus (skipn 100 (bus (initialised (repeat 1 100))))
             (initialised (repeat 1 100))))
  /\
  autofocus_vcm_step (initialised ([1] ++ 0 :: 77 :: [5]))
  = (Ok (Some 77),
     emit (acknowledged _OV5640_CMD_AF_GET_VCM_STEP [1]
           ++ reg_read _OV5640_CMD_PARA4 77)
          (with_bus [5] (initialised ([1] ++ 0 :: 77 :: [5])))).
Proof.
  split.
  - apply (proj1 (autofocus_vcm_step_read
                    (initialised (repeat 1 100)) 0x3C eq_refl));
      [simpl; lia | reflexivity].
  - apply (proj2 (autofocus_vcm_step_read
                    (initialised ([1] ++ 0 :: 77 :: [5])) 0x3C eq_refl)
             [1] 77 [5]);
      [reflexivity | simpl; lia | reflexivity].
Defined.

(** X13. [set_camera_wb] with a list whose length is not 6 raises
    [RuntimeError] before any bus traffic.  With six byte values it writes
    0x03 to 0x3212 and 0x01 to 0x3406, the six values to 0x3400..0x3405 in
    order, then 0x13 and 0xA3 to 0x3212; the camera object, its [whitebal]
    flag included, is left as it was. *)
Theorem set_camera_wb_writes st values :
  (len values <> 6 ->
   set_camera_wb (Some values) st
   = (Raise (RuntimeError "Please pass in 0x3400~0x3405 inclusive!"), st))
  /\
  (len values = 6 ->
   forallb is_byte values = true ->
   forall a, _camera_device st = Some a ->
   set_camera_wb (Some values) st
   = (Ok tt,
      emit ([reg_write 0x3212 0x03; reg_write 0x3406 0x01]
            ++ map (fun iv => reg_write (0x3400 + fst iv) (snd iv))
                 (combine [0; 1; 2; 3; 4; 5] values)
            ++ [reg_write 0x3212 0x13; reg_write 0x3212 0xA3])
           st)).
Proof.
  split.
  - intros Hlen. unfold set_camera_wb.
    destruct (Z.eqb_spec (len values) 6); [contradiction | reflexivity].
  - intros Hlen Hbytes a Ha. unfold set_camera_wb. rewrite Hlen.
    cbn [Z.eqb Pos.eqb negb].
    destruct values as [|v0 [|v1 [|v2 [|v3 [|v4 [|v5 [|v6 tl]]]]]]];
      try discriminate Hlen.
    2: { unfold len in Hlen. simpl List.length in Hlen. lia. }
    cbn [forallb] in Hbytes.
    repeat (apply andb_prop in Hbytes as [? Hbytes]).
    cbn [write_wb_registers].
    do 8 (rewrite write_camera_register_bind with (a := a) by easy;
          rewrite ?bind_assoc).
    rewrite ret_bind.
    rewrite write_camera_register_bind with (a := a) by easy.
    rewrite write_camera_register_run with (a := a) by easy.
    rewrite !emit_emit. reflexivity.
Qed.

Lemma set_camera_wb_writes_witness :
  set_camera_wb (Some [1; 2; 3]) (initialised ([] : Scripted))
  = (Raise (RuntimeError "Please pass in 0x3400~0x3405 inclusive!"),
     initialised ([] : Scripted))
  /\
  set_camera_wb (Some [4; 0; 4; 0; 7; 0x80]) (initialised ([] : Scripted))
  = (Ok tt,
     emit ([reg_write 0x3212 0x03; reg_write 0x3406 0x01]
           ++ map (fun iv => reg_write (0x3400 + fst iv) (snd iv))
                (combine [0; 1; 2; 3; 4; 5] [4; 0; 4; 0; 7; 0x80])
           ++ [reg_write 0x3212 0x13; reg_write 0x3212 0xA3])
          (initialised ([] : Scripted))).
Proof.
  split.
  - apply (proj1 (set_camera_wb_writes (initialised ([] : Scripted)) [1; 2; 3])).
    discriminate.
  - apply (proj2 (set_camera_wb_writes (initialised ([] : Scripted))
                    [4; 0; 4; 0; 7; 0x80])
             eq_refl eq_refl 0x3C eq_refl).
Defined.

End MoreScriptedRuns.

(** ** Construction, resolution names and capture modes *)

Section MorePipeline.

Context {D : Type} {device : I2CDevice D}.
Implicit Types st : St D.

(** X5. On a sensor that is not an OV5640 the firmware load raises
    [RuntimeError("Autofocus not supported on <name>")] at once: nothing is
    sent on the bus and the state is untouched. *)
Theorem autofocus_init_from_bitstream_unsupported st c firmware :
  camera st = Some c ->
  sensor_name c <> "OV5640"%string ->
  autofocus_init_from_bitstream firmware st
  = (Raise (RuntimeError ("Autofocus not supported on " ++ sensor_name c)), st).
Proof.
  intros Hc Hname. unfold autofocus_init_from_bitstream.
  rewrite get_camera_bind with (c := c) by exact Hc.
  apply String.eqb_neq in Hname. now rewrite Hname.
Qed.



(** X10. Selecting a resolution by a name that is not in the table raises
    [RuntimeError("Invalid Resolution")] and keeps the previous selection;
    selecting one that is in the table stores its position. *)
Theorem resolution_setter_by_string st name :
  (contains name resolutions = false ->
   resolution_setter (Str name) st
   = (Raise (RuntimeError "Invalid Resolution"), st))
  /\
  (contains name resolutions = true ->
   exists i,
     nth_error resolutions i = Some name
     /\ resolution_setter (Str name) st
        = (Ok tt, with_resolution (Some (Z.of_nat i)) st)).
Proof.
  split.
  - intros Hno. unfold resolution_setter, bind. now rewrite Hno.
  - intros Hyes. unfold contains in Hyes.
    apply existsb_exists in Hyes as (x & Hin & Heq).
    apply String.eqb_eq in Heq. subst x.
    apply In_nth_error in Hin as [i Hi]. exists i. split; [exact Hi|].
    rewrite (resolution_setter_by_name st i name Hi).
    assert (Hlt : (i < List.length resolutions)%nat)
      by (apply nth_error_Some; rewrite Hi; discriminate).
    change (List.length resolutions) with 13%nat in Hlt.
    unfold resolution_setter, bind, ret. do 2 f_equal. f_equal.
    change (len resolutions) with 13.
    rewrite <- (Z.mul_1_l 13) at 1. rewrite Z.mod_add by lia.
    apply Z.mod_small. lia.
Qed.

(** X11. After a selection by any integer index, a JPEG capture never
    fails on the table lookup: it reconfigures the sensor to JPEG with the
    frame size at position [index mod 13], whatever mode the sensor was in,
    sleeps 100 ms and returns the frame the sensor delivers, or [None]. *)
Theorem capture_after_index_selection st c z :
  camera st = Some c ->
  exists fs f st',
    bind (resolution_setter (Int z)) (fun _ => capture_into_jpeg) st = (Ok f, st')
    /\ nth_error resolution_to_frame_size (Z.to_nat (z mod 13)) = Some fs
    /\ trace st' = trace st ++ [Reconfigure JPEG fs; Sleep 100; Take f]
    /\ option_map pixel_format (camera st') = Some JPEG
    /\ option_map frame_size (camera st') = Some fs
    /\ f = hd None (frames st).
Proof.
  intros Hc.
  pose proof (Z.mod_pos_bound z 13 ltac:(lia)) as Hr.
  set (r := z mod 13) in *.
  assert (Hstored : (z + len resolutions) mod len resolutions = r).
  { change (len resolutions) with 13.
    rewrite <- (Z.mul_1_l 13) at 1. now rewrite Z.mod_add by lia. }
  destruct (nth_error resolution_to_frame_size (Z.to_nat r)) as [fs|] eqn:Hfs.
  2: { apply nth_error_None in Hfs. simpl in Hfs. lia. }
  assert (Hget : getitem resolution_to_frame_size r = Some fs).
  { unfold getitem. change (len resolution_to_frame_size) with 13.
    destruct (Z.leb_spec 0 r), (Z.ltb_spec r 13); try lia. exact Hfs. }
  exists fs.
  destruct st as [dv cam res b att fw fr tr]. cbn [camera] in Hc. subst cam.
  unfold resolution_setter, bind, ret, with_resolution.
  cbn [_camera_device camera _resolution bus attached firmware_file frames trace].
  rewrite Hstored.
  unfold capture_into_jpeg, bind, get_camera, get_resolution, ret,
    camera_reconfigure, bind, get_camera, put_camera, log, sleep,
    camera_take, get_camera, emit, with_camera, with_frames.
  cbn [camera _resolution]. rewrite Hget. cbn.
  destruct fr as [|f rest].
  - exists None. eexists. split; [reflexivity|]. cbn.
    rewrite <- !app_assoc. repeat split.
  - exists f. eexists. split; [reflexivity|]. cbn.
    rewrite <- !app_assoc. repeat split.
Qed.

(** X17. [continuous_capture] never reconfigures the sensor: called after
    a JPEG capture it only grabs the next frame, and the sensor is still in
    JPEG format with the frame size of the selected resolution. *)
Theorem continuous_capture_after_jpeg st c r fs :
  camera st = Some c ->
  _resolution st = Some r ->
  getitem resolution_to_frame_size r = Some fs ->
  exists f1 f2 st',
    bind capture_into_jpeg
      (fun f1 => bind continuous_capture (fun f2 => ret (f1, f2))) st
    = (Ok (f1, f2), st')
    /\ trace st' = trace st ++ [Reconfigure JPEG fs; Sleep 100; Take f1; Take f2]
    /\ option_map pixel_format (camera st') = Some JPEG
    /\ option_map frame_size (camera st') = Some fs
    /\ f1 = hd None (frames st)
    /\ f2 = hd None (tl (frames st)).
Proof.
  intros Hc Hr Hfs.
  destruct st as [dv cam res b att fw fr tr]. cbn [camera _resolution] in Hc, Hr.
  subst cam res.
  unfold continuous_capture, capture_into_jpeg, bind, get_camera,
    get_resolution, ret, camera_reconfigure, bind, get_camera, put_camera,
    log, sleep, camera_take, get_camera, emit, with_camera, with_frames.
  cbn [camera _resolution]. rewrite Hfs. cbn.
  destruct fr as [|f1 [|f2 rest]]; cbn.
  - exists None, None. eexists. split; [reflexivity|]. cbn.
    rewrite <- !app_assoc. repeat split.
  - exists f1, None. eexists. split; [reflexivity|]. cbn.
    rewrite <- !app_assoc. repeat split.
  - exists f1, f2. eexists. split; [reflexivity|]. cbn.
    rewrite <- !app_assoc. repeat split.
Qed.

End MorePipeline.

(** An OV2640, which has no autofocus, attached in place of the OV5640. *)
Definition ov2640 : Camera :=
  mkCamera "OV2640" 0x30 RGB565 HQVGA false true true true true.

Lemma autofocus_init_from_bitstream_unsupported_witness :
  autofocus_init_from_bitstream [1; 2; 3]
    (with_camera (Some ov2640) (initialised ([] : Scripted)))
  = (Raise (RuntimeError "Autofocus not supported on OV2640"),
     with_camera (Some ov2640) (initialised ([] : Scripted))).
Proof.
  apply (autofocus_init_from_bitstream_unsupported
           (with_camera (Some ov2640) (initialised ([] : Scripted)))
           ov2640 [1; 2; 3] eq_refl).
  discriminate.
Defined.

(** A device that is not there: nothing is acknowledged. *)
Inductive Absent : Type := absent.

#[global] Instance Absent_device : I2CDevice Absent := {
  i2c_write := fun _ _ => None;
  i2c_readinto := fun _ => None
}.


Lemma resolution_setter_by_string_witness :
  resolution_setter (Str "160x120") (initialised ([] : Scripted))
  = (Raise (RuntimeError "Invalid Resolution"), initialised ([] : Scripted))
  /\
  exists i,
    nth_error resolutions i = Some "1024x768"%string
    /\ resolution_setter (Str "1024x768") (initialised ([] : Scripted))
       = (Ok tt, with_resolution (Some (Z.of_nat i)) (initialised ([] : Scripted))).
Proof.
  split.
  - apply (proj1 (resolution_setter_by_string
                    (initialised ([] : Scripted)) "160x120")).
    reflexivity.
  - apply (proj2 (resolution_setter_by_string
                    (initialised ([] : Scripted)) "1024x768")).
    reflexivity.
Defined.

Lemma capture_after_index_selection_witness :
  exists fs f st',
    bind (resolution_setter (Int (-1))) (fun _ => capture_into_jpeg)
      (initialised ([] : Scripted))
    = (Ok f, st')
    /\ nth_error resolution_to_frame_size (Z.to_nat (-1 mod 13)) = Some fs
    /\ trace st'
       = trace (initialised ([] : Scripted))
         ++ [Reconfigure JPEG fs; Sleep 100; Take f]
    /\ option_map pixel_format (camera st') = Some JPEG
    /\ option_map frame_size (camera st') = Some fs
    /\ f = hd None (frames (initialised ([] : Scripted))).
Proof.
  exact (capture_after_index_selection (initialised ([] : Scripted))
           ov5640 (-1) eq_refl).
Defined.

Lemma continuous_capture_after_jpeg_witness :
  let st := with_resolution (Some 3) (initialised ([] : Scripted)) in
  exists f1 f2 st',
    bind capture_into_jpeg
      (fun f1 => bind continuous_capture (fun f2 => ret (f1, f2))) st
    = (Ok (f1, f2), st')
    /\ trace st' = trace st ++ [Reconfigure JPEG SVGA; Sleep 100; Take f1; Take f2]
    /\ option_map pixel_format (camera st') = Some JPEG
    /\ option_map frame_size (camera st') = Some SVGA
    /\ f1 = hd None (frames st)
    /\ f2 = hd None (tl (frames st)).
Proof.
  exact (continuous_capture_after_jpeg
           (with_resolution (Some 3) (initialised ([] : Scripted)))
           ov5640 3 SVGA eq_refl eq_refl eq_refl).
Defined.

(** ** Settings read back from a register file *)

Section MoreRegFileRuns.

Implicit Types st : St RegFile.

Lemma bind_ret_r {D A} (m : M D A) (st : St D) : bind m ret st = m st.
Proof. unfold bind, ret. destruct (m st) as [[x|e] st1]; reflexivity. Qed.

Ltac register_file_step a :=
  first
    [ erewrite write_register_file with (a := a);
      [ | first [ reflexivity | assumption | lia | apply land_255_byte ] .. ]
    | erewrite read_register_file with (a := a);
      [ | first [ reflexivity | lia ] .. ] ].

(** X4. On a register file, a register written with
    [write_camera_register] reads back through [read_camera_register], and
    the write leaves every other register as it was: the two functions
    frame the 16-bit address in the same way. *)
Theorem register_write_then_read st a reg value reg' :
  _camera_device st = Some a ->
  0 <= reg < 0x10000 ->
  0 <= reg' < 0x10000 ->
  0 <= value <= 255 ->
  exists st',
    bind (write_camera_register reg value) (fun _ => read_camera_register reg') st
    = (Ok (if reg' =? reg then value else regs (bus st) reg'), st')
    /\ trace st'
       = trace st
         ++ reg_write reg value
         :: reg_read reg' (if reg' =? reg then value else regs (bus st) reg').
Proof.
  intros Ha Hreg Hreg' Hv.
  assert (Hb : is_byte value = true).
  { unfold is_byte. apply andb_true_intro; split;
      [apply Z.leb_le | apply Z.ltb_lt]; lia. }
  destruct st as [dv cam res [f p] att fw fr tr].
  cbn [_camera_device] in Ha. subst dv.
  eexists. split.
  - register_file_step a.
    rewrite <- bind_ret_r.
    register_file_step a.
    reflexivity.
  - cbn [trace emit with_bus bus regs]. now rewrite <- app_assoc.
Qed.

Lemma exposure_bits_mod e :
  Z.shiftl (Z.land (Z.shiftr e 12) 0xFF) 12
  + Z.shiftl (Z.land (Z.shiftr e 4) 0xFF) 4
  + Z.shiftr (Z.land (Z.shiftl e 4) 0xFF) 4
  = e mod 2 ^ 20.
Proof.
  change 0xFF with (Z.ones 8).
  rewrite !Z.land_ones, !Z.shiftr_div_pow2, !Z.shiftl_mul_pow2 by lia.
  change (2 ^ 20) with 1048576.
  change (2 ^ 12) with 4096. change (2 ^ 8) with 256. change (2 ^ 4) with 16.
  pose proof (Z.div_mod e 1048576 ltac:(lia)).
  pose proof (Z.mod_pos_bound e 1048576 ltac:(lia)).
  pose proof (Z.div_mod e 4096 ltac:(lia)).
  pose proof (Z.mod_pos_bound e 4096 ltac:(lia)).
  pose proof (Z.div_mod (e / 4096) 256 ltac:(lia)).
  pose proof (Z.mod_pos_bound (e / 4096) 256 ltac:(lia)).
  pose proof (Z.div_mod e 16 ltac:(lia)).
  pose proof (Z.mod_pos_bound e 16 ltac:(lia)).
  pose proof (Z.div_mod (e / 16) 256 ltac:(lia)).
  pose proof (Z.mod_pos_bound (e / 16) 256 ltac:(lia)).
  pose proof (Z.div_mod (e * 16) 256 ltac:(lia)).
  pose proof (Z.mod_pos_bound (e * 16) 256 ltac:(lia)).
  pose proof (Z.div_mod ((e * 16) mod 256) 16 ltac:(lia)).
  pose proof (Z.mod_pos_bound ((e * 16) mod 256) 16 ltac:(lia)).
  lia.
Qed.

(** X16. The exposure is stored modulo 2^20: for every integer, in range
    or not, setting the exposure and reading the settings back from a
    register file gives the value reduced modulo 2^20, and the automatic
    exposure control of the camera object is switched off. *)
Theorem exposure_stored_modulo st a c e :
  _camera_device st = Some a ->
  camera st = Some c ->
  exists settings st',
    bind (set_camera_exposure (Some e)) (fun _ => get_camera_autosettings) st
    = (Ok settings, st')
    /\ exposure settings = e mod 2 ^ 20
    /\ option_map exposure_ctrl (camera st') = Some false.
Proof.
  intros Ha Hc.
  destruct st as [dv cam res [f p] att fw fr tr].
  cbn [_camera_device camera] in Ha, Hc. subst dv cam.
  do 2 eexists. split; [|split].
  - unfold set_camera_exposure, get_camera_autosettings.
    rewrite !bind_assoc.
    rewrite get_camera_bind with (c := c) by reflexivity.
    rewrite bind_assoc. unfold bind at 1, put_camera.
    do 3 (rewrite ?bind_assoc; register_file_step a).
    do 3 register_file_step a.
    cbn [read_registers].
    do 6 (rewrite ?bind_assoc; register_file_step a).
    rewrite ?bind_assoc, !ret_bind.
    register_file_step a.
    reflexivity.
  - cbn [exposure]. cbn [Z.eqb Pos.eqb].
    apply exposure_bits_mod.
  - reflexivity.
Qed.

(** X15. A manual gain reads back: after [set_camera_gain(g)] with a byte
    [g], the settings read from a register file have gain [g], and the
    automatic gain control of the camera object is switched off. *)
Theorem gain_round_trip st a c g :
  _camera_device st = Some a ->
  camera st = Some c ->
  0 <= g <= 255 ->
  exists settings st',
    bind (set_camera_gain (Some g)) (fun _ => get_camera_autosettings) st
    = (Ok settings, st')
    /\ gain settings = g
    /\ option_map gain_ctrl (camera st') = Some false.
Proof.
  intros Ha Hc Hg.
  assert (Hb : is_byte g = true).
  { unfold is_byte. apply andb_true_intro; split;
      [apply Z.leb_le | apply Z.ltb_lt]; lia. }
  destruct st as [dv cam res [f p] att fw fr tr].
  cbn [_camera_device camera] in Ha, Hc. subst dv cam.
  do 2 eexists. split; [|split].
  - unfold set_camera_gain, get_camera_autosettings.
    rewrite !bind_assoc.
    rewrite get_camera_bind with (c := c) by reflexivity.
    rewrite bind_assoc. unfold bind at 1, put_camera.
    register_file_step a.
    do 3 register_file_step a.
    cbn [read_registers].
    do 6 (rewrite ?bind_assoc; register_file_step a).
    rewrite ?bind_assoc, !ret_bind.
    register_file_step a.
    reflexivity.
  - cbn [gain]. cbn [Z.eqb Pos.eqb]. reflexivity.
  - reflexivity.
Qed.

(** X14. A manual white balance reads back: after [set_camera_wb] with six
    bytes, the settings read from a register file carry the same six
    bytes, in order. *)
Theorem wb_round_trip st a values :
  _camera_device st = Some a ->
  len values = 6 ->
  forallb is_byte values = true ->
  exists settings st',
    bind (set_camera_wb (Some values)) (fun _ => get_camera_autosettings) st
    = (Ok settings, st')
    /\ wb settings = values.
Proof.
  intros Ha Hlen Hbytes.
  destruct values as [|v0 [|v1 [|v2 [|v3 [|v4 [|v5 [|v6 tl]]]]]]];
    try discriminate Hlen.
  2: { unfold len in Hlen. simpl List.length in Hlen. lia. }
  cbn [forallb] in Hbytes.
  repeat (apply andb_prop in Hbytes as [? Hbytes]).
  destruct st as [dv cam res [f p] att fw fr tr].
  cbn [_camera_device] in Ha. subst dv.
  do 2 eexists. split.
  - unfold set_camera_wb, get_camera_autosettings.
    cbn [len List.length Z.of_nat Pos.of_succ_nat Pos.succ Z.eqb Pos.eqb negb].
    cbn [write_wb_registers].
    change (0x3400 + 0) with 0x3400.
    change (0x3400 + (0 + 1)) with 0x3401.
    change (0x3400 + (0 + 1 + 1)) with 0x3402.
    change (0x3400 + (0 + 1 + 1 + 1)) with 0x3403.
    change (0x3400 + (0 + 1 + 1 + 1 + 1)) with 0x3404.
    change (0x3400 + (0 + 1 + 1 + 1 + 1 + 1)) with 0x3405.
    do 8 (rewrite ?bind_assoc; register_file_step a).
    rewrite ?bind_assoc, ret_bind.
    do 2 (rewrite ?bind_assoc; register_file_step a).
    do 3 register_file_step a.
    cbn [read_registers].
    do 6 (rewrite ?bind_assoc; register_file_step a).
    rewrite ?bind_assoc, !ret_bind.
    register_file_step a.
    reflexivity.
  - cbn [wb]. cbn [Z.eqb Pos.eqb]. reflexivity.
Qed.

End MoreRegFileRuns.

Lemma register_write_then_read_witness :
  exists st',
    bind (write_camera_register 0x3503 0x03) (fun _ => read_camera_register 0x3503)
      (initialised (mkRegFile (fun _ => 0) 0))
    = (Ok (if 0x3503 =? 0x3503 then 0x03 else 0), st')
    /\ trace st'
       = [] ++ reg_write 0x3503 0x03
         :: reg_read 0x3503 (if 0x3503 =? 0x3503 then 0x03 else 0).
Proof.
  apply (register_write_then_read (initialised (mkRegFile (fun _ => 0) 0))
           0x3C 0x3503 0x03 0x3503);
    [reflexivity | lia | lia | lia].
Defined.

Lemma exposure_stored_modulo_witness :
  exists settings st',
    bind (set_camera_exposure (Some 0x123456)) (fun _ => get_camera_autosettings)
      (initialised (mkRegFile (fun _ => 0) 0))
    = (Ok settings, st')
    /\ exposure settings = 0x123456 mod 2 ^ 20
    /\ option_map exposure_ctrl (camera st') = Some false.
Proof.
  apply (exposure_stored_modulo (initialised (mkRegFile (fun _ => 0) 0))
           0x3C ov5640 0x123456);
    reflexivity.
Defined.

Lemma gain_round_trip_witness :
  exists settings st',
    bind (set_camera_gain (Some 0x40)) (fun _ => get_camera_autosettings)
      (initialised (mkRegFile (fun _ => 0) 0))
    = (Ok settings, st')
    /\ gain settings = 0x40
    /\ option_map gain_ctrl (camera st') = Some false.
Proof.
  apply (gain_round_trip (initialised (mkRegFile (fun _ => 0) 0))
           0x3C ov5640 0x40);
    [reflexivity | reflexivity | lia].
Defined.

Lemma wb_round_trip_witness :
  exists settings st',
    bind (set_camera_wb (Some [4; 0; 4; 0; 7; 0x80]))
      (fun _ => get_camera_autosettings)
      (initialised (mkRegFile (fun _ => 0) 0))
    = (Ok settings, st')
    /\ wb settings = [4; 0; 4; 0; 7; 0x80].
Proof.
  apply (wb_round_trip (initialised (mkRegFile (fun _ => 0) 0))
           0x3C [4; 0; 4; 0; 7; 0x80]);
    reflexivity.
Defined.

(** ** The motion loop of [pir_af.py] *)

Lemma pir_loop_held_high n : forall last k,
  (k < n)%nat ->
  nth k (pir_loop (repeat true n) last) false
  = if last then Nat.odd k else Nat.even k.
Proof.
  induction n as [|n IH]; intros last k Hk; [lia|].
  destruct last, k as [|k]; cbn [repeat pir_loop andb negb Bool.eqb nth];
    try reflexivity; rewrite IH by lia.
  - now rewrite Nat.odd_succ.
  - now rewrite Nat.even_succ.
Qed.

(** X18. In the motion loop a capture is only started on a turn that reads
    the PIR pin high, and never on two turns in a row; but the loop does
    not wait for the pin to go low: while the pin stays high, every second
    turn starts a capture. *)
Theorem pir_loop_retriggers readings last :
  (forall k,
      nth k (pir_loop readings last) false = true ->
      nth k readings false = true
      /\ nth (S k) (pir_loop readings last) false = false)
  /\ (forall n k,
         (k < n)%nat ->
         nth k (pir_loop (repeat true n) false) false = Nat.even k).
Proof.
  split.
  - revert last. induction readings as [|s rest IH]; intros last k Hk.
    + destruct k; discriminate.
    + destruct k as [|k].
      * destruct s, last; cbn in Hk; try discriminate.
        split; [reflexivity|]. cbn [pir_loop andb negb Bool.eqb nth].
        destruct rest as [|[] rest]; reflexivity.
      * cbn [nth]. cbn [pir_loop] in Hk |- *.
        destruct (s && negb (Bool.eqb s last)); cbn [nth] in Hk |- *;
          exact (IH _ k Hk).
  - intros n k Hk. now rewrite pir_loop_held_high.
Qed.

Lemma pir_loop_retriggers_witness :
  nth 2 (pir_loop (repeat true 5) false) false = Nat.even 2
  /\ (nth 2 [true; true; true] false = true
      /\ nth 3 (pir_loop [true; true; true] false) false = false).
Proof.
  split.
  - apply (proj2 (pir_loop_retriggers [] false) 5%nat 2%nat). lia.
  - apply (proj1 (pir_loop_retriggers [true; true; true] false) 2%nat).
    reflexivity.
Defined.
